(** * gtsam [Values]: the heterogeneous, type-checked container of
    [gtsam/nonlinear/Values-inl.h]

    The container maps keys to type-erased holders ([Value], whose only
    concrete class is [GenericValue<T>]).  Typed access goes through a
    [dynamic_cast] on the holder; typed insertion goes through
    [internal::handle_wrap], which stores every [Eigen::Matrix<double,M,N>]
    in a dynamically sized holder. *)

From stdpp Require Import gmap strings list fin_maps sorting.

Open Scope Z_scope.

(** ** Types and run-time type identity *)

(** [Key] is an unsigned 64-bit integer in the source; the container only
    compares keys, so no arithmetic (and no wrap-around) is involved. *)
Abbreviation Key := N (only parsing).

(** The types a caller can name as [ValueType].  [Matrix M N] is
    [Eigen::Matrix<double, M, N>] with [Eigen::Dynamic = -1]; every other
    storable class (Rot3, Pose3, ...) is identified by its name. *)
Inductive ValueType : Type :=
| Matrix (M N : Z)
| Class (name : string).

#[global] Instance ValueType_eq_dec : EqDecision ValueType.
Proof. solve_decision. Defined.

Definition Dynamic : Z := -1.
Definition VectorXd : ValueType := Matrix Dynamic 1.
Definition MatrixXd : ValueType := Matrix Dynamic Dynamic.
Definition Vector3 : ValueType := Matrix 3 1.
Definition Vector4 : ValueType := Matrix 4 1.

(** What [typeid] yields: applied to the pointee of a stored holder it is
    the identity of [GenericValue<T>], applied to [ValueType] that of the
    requested type itself. *)
Inductive type_info : Type :=
| typeid_GenericValue (T : ValueType)
| typeid_ValueType (T : ValueType).

#[global] Instance type_info_eq_dec : EqDecision type_info.
Proof. solve_decision. Defined.

(** The exceptions thrown by the container.  The first three are thrown
    in [Values-inl.h]; [DuplicateKey] is the error the specification gives
    for the untemplated [Values::insert(Key, const Value&)]. *)
Inductive exception : Type :=
| ValuesKeyDoesNotExist (operation : string) (key : Key)
| ValuesIncorrectType (key : Key) (storedTypeId requestedTypeId : type_info)
| NoMatchFoundForFixed (M1 N1 M2 N2 : Z)
| DuplicateKey (key : Key).

(** A call either returns or throws. *)
Inductive result (A : Type) : Type :=
| Return (a : A)
| Throw (e : exception).
Arguments Return {A} a.
Arguments Throw {A} e.

Definition bind {A B} (r : result A) (k : A → result B) : result B :=
  match r with
  | Return a => k a
  | Throw e => Throw e
  end.

Section Payload.

(** The container never computes with the scalars of a matrix or with
    the state of a class object, it only copies them: both stay abstract. *)
Variable double : Type.
Variable object : Type.

(** A payload value as it exists at run time: an Eigen matrix carries its
    [rows()], [cols()] and coefficients whatever its compile-time shape, so
    converting between fixed and dynamic matrix types keeps the data. *)
Inductive payload : Type :=
| MatrixData (rows cols : Z) (coeffs : list double)
| ObjectData (o : object).

(** The abstract base [Value]; every stored object is a
    [GenericValue<T>] owning one payload. *)
Inductive Value : Type :=
| GenericValue (T : ValueType) (val : payload).

End Payload.

Arguments MatrixData {double object} rows cols coeffs.
Arguments ObjectData {double object} o.
Arguments GenericValue {double object} T val.

Section Container.

Context {double object : Type}.

Abbreviation payload := (payload double object).
Abbreviation Value := (Value double object).

Definition rows (A : payload) : Z :=
  match A with MatrixData r _ _ => r | ObjectData _ => 0 end.
Definition cols (A : payload) : Z :=
  match A with MatrixData _ c _ => c | ObjectData _ => 0 end.

Definition stored_type (v : Value) : ValueType :=
  match v with GenericValue T _ => T end.
Definition value (v : Value) : payload :=
  match v with GenericValue _ val => val end.

(** [Values::KeyValuePair]: what a container iterator refers to. *)
Abbreviation KeyValuePair := (Key * Value)%type.

(** [typeid] of the object a holder pointer refers to *)
Definition typeid (pointer : Value) : type_info :=
  typeid_GenericValue (stored_type pointer).

(** [dynamic_cast] of the pointee to [const GenericValue<ValueType>&];
    [None] stands for [std::bad_cast]. *)
Definition dynamic_cast (T : ValueType) (pointer : Value) : option Value :=
  if decide (stored_type pointer = T) then Some pointer else None.

(** [KeyValueMap values_]: an ordered map from keys to owned holders. *)
Abbreviation Values := (gmap Key Value).

(** ** Typed access *)

(** [Values::at<ValueType>(Key j) const] *)
Definition at_ (T : ValueType) (j : Key) (values_ : Values) : result payload :=
  match values_ !! j with
  | None => Throw (ValuesKeyDoesNotExist "at" j)
  | Some item =>
      match dynamic_cast T item with
      | Some gv => Return (value gv)
      | None => Throw (ValuesIncorrectType j (typeid item) (typeid_ValueType T))
      end
  end.

(** [Values::exists<ValueType>(Key j) const]; [boost::none] is [None]. *)
Definition exists_ (T : ValueType) (j : Key) (values_ : Values)
  : result (option payload) :=
  match values_ !! j with
  | Some item =>
      match dynamic_cast T item with
      | Some gv => Return (Some (value gv))
      | None => Throw (ValuesIncorrectType j (typeid item) (typeid_ValueType T))
      end
  | None => Return None
  end.

(** ** [internal::handle]: the type check with fixed-size requests *)

(** The general template, which is also the body of the two
    specialisations for dynamic vectors and matrices. *)
Definition handle_exact (T : ValueType) (j : Key) (pointer : Value)
  : result payload :=
  match dynamic_cast T pointer with
  | Some gv => Return (value gv)
  | None => Throw (ValuesIncorrectType j (typeid pointer) (typeid_ValueType T))
  end.

(** The two specialisations for a fixed request: on [bad_cast], look for
    the dynamic type [D] and compare shapes. *)
Definition handle_fixed (M N : Z) (D : ValueType) (j : Key) (pointer : Value)
  : result payload :=
  match dynamic_cast (Matrix M N) pointer with
  | Some gv => Return (value gv)
  | None =>
      bind (handle_exact D j pointer) (λ A,
        if negb (rows A =? M) || negb (cols A =? N)
        then Throw (NoMatchFoundForFixed M N (rows A) (cols A))
        else Return A)
  end.

(** Selection among the specialisations of [internal::handle]:
    [<-1,1>] and [<-1,N>] before [<M,1>] before [<M,N>]. *)
Definition handle (T : ValueType) (j : Key) (pointer : Value) : result payload :=
  match T with
  | Matrix M N =>
      if M =? Dynamic then handle_exact (Matrix Dynamic N) j pointer
      else if N =? 1 then handle_fixed M 1 VectorXd j pointer
      else handle_fixed M N MatrixXd j pointer
  | Class _ => handle_exact T j pointer
  end.

(** ** [internal::handle_wrap]: wrap all fixed in dynamics *)

Definition handle_wrap (T : ValueType) (j : Key) (val : payload) : Value :=
  match T with
  | Matrix M N =>
      if N =? 1 then GenericValue VectorXd val
      else GenericValue MatrixXd val
  | Class _ => GenericValue T val
  end.

(** ** Mutation

    A mutating member function is a function from the container before
    the call to the outcome of the call and the container after it, so
    that what a throwing call leaves behind can be stated. *)

Definition mutation : Type := Values → result unit * Values.

(** Modelled from the spec: the untemplated
    [Values::insert(Key, const Value&)] of Values.cpp, which the templated
    [insert] calls.  It fails with [DuplicateKey] if the key is already
    present and otherwise stores a clone of the holder under the key. *)
Definition insert_Value (j : Key) (val : Value) : mutation :=
  λ values_,
    match values_ !! j with
    | Some _ => (Throw (DuplicateKey j), values_)
    | None => (Return (), <[j := val]> values_)
    end.

(** Modelled from the spec: the untemplated
    [Values::update(Key, const Value&)] of Values.cpp.  It fails with
    [KeyDoesNotExist] if the key is absent and otherwise replaces the
    existing holder wholesale. *)
Definition update_Value (j : Key) (val : Value) : mutation :=
  λ values_,
    match values_ !! j with
    | None => (Throw (ValuesKeyDoesNotExist "update" j), values_)
    | Some _ => (Return (), <[j := val]> values_)
    end.

(** Modelled from the spec: [Values::erase(Key)] of Values.cpp.  It
    removes the entry and fails with [KeyDoesNotExist] if it is absent. *)
Definition erase (j : Key) : mutation :=
  λ values_,
    match values_ !! j with
    | None => (Throw (ValuesKeyDoesNotExist "erase" j), values_)
    | Some _ => (Return (), delete j values_)
    end.

(** [Values::insert<ValueType>(Key j, const ValueType& val)] *)
Definition insert (T : ValueType) (j : Key) (val : payload) : mutation :=
  insert_Value j (handle_wrap T j val).

(** [Values::update<ValueType>(Key j, const ValueType& val)] *)
Definition update (T : ValueType) (j : Key) (val : payload) : mutation :=
  update_Value j (handle_wrap T j val).

(** ** Iteration and filtered views *)

Definition key_le (a b : KeyValuePair) : Prop := (a.1 ≤ b.1)%N.

#[local] Instance key_le_dec a b : Decision (key_le a b).
Proof. unfold key_le. apply _. Defined.

(** [values.begin()]: the container is a key-ordered map, so iterating
    from [begin()] to [end()] visits the entries by ascending key.  An
    iterator is the sequence of entries from its position on; [end()] is
    the empty sequence. *)
Definition Values_begin (values : Values) : list KeyValuePair :=
  merge_sort key_le (map_to_list values).

(** [boost::filter_iterator]: construction and increment both move on to
    the next entry that satisfies the predicate. *)
Fixpoint satisfy_predicate (f : KeyValuePair → bool) (it : list KeyValuePair)
  : list KeyValuePair :=
  match it with
  | [] => []
  | key_value :: rest =>
      if f key_value then it else satisfy_predicate f rest
  end.

Definition make_filter_iterator (f : KeyValuePair → bool)
  (it : list KeyValuePair) : list KeyValuePair :=
  satisfy_predicate f it.

Definition increment (f : KeyValuePair → bool) (it : list KeyValuePair)
  : list KeyValuePair :=
  match it with
  | [] => []
  | _ :: rest => satisfy_predicate f rest
  end.

(** [ValuesCastHelper<ValueType, ...>::cast]: a static cast, the type was
    checked during filtering. *)
Definition ValuesCastHelper_cast (key_value : KeyValuePair) : Key * payload :=
  (key_value.1, value key_value.2).

(** [ValuesCastHelper<Value, ...>::cast] and its [const Value] twin. *)
Definition ValuesCastHelper_Value_cast (key_value : KeyValuePair) : KeyValuePair :=
  (key_value.1, key_value.2).

(** [Values::Filtered<ValueType>] with casted pairs of type [C].  The
    filter iterators carry the predicate, the transform iterators the
    cast; [begin_] and [constBegin_] are positions in the same container,
    [end_] and [constEnd_] are its end. *)
Record Filtered (C : Type) : Type := mkFiltered {
  Filtered_filter : KeyValuePair → bool;
  Filtered_cast : KeyValuePair → C;
  begin_ : list KeyValuePair;
  constBegin_ : list KeyValuePair
}.
Arguments mkFiltered {C}.
Arguments Filtered_filter {C}.
Arguments Filtered_cast {C}.
Arguments begin_ {C}.
Arguments constBegin_ {C}.

(** The private constructor [Filtered(filter, values)]. *)
Definition Filtered_ctor {C} (cast : KeyValuePair → C)
  (filter : KeyValuePair → bool) (values : Values) : Filtered C :=
  mkFiltered filter cast
    (make_filter_iterator filter (Values_begin values))
    (make_filter_iterator filter (Values_begin values)).

(** [Values::ConstFiltered<ValueType>] *)
Record ConstFiltered (C : Type) : Type := mkConstFiltered {
  ConstFiltered_filter : KeyValuePair → bool;
  ConstFiltered_cast : KeyValuePair → C;
  ConstFiltered_begin_ : list KeyValuePair
}.
Arguments mkConstFiltered {C}.
Arguments ConstFiltered_filter {C}.
Arguments ConstFiltered_cast {C}.
Arguments ConstFiltered_begin_ {C}.

(** Conversion from [Filtered] to [ConstFiltered]. *)
Definition ConstFiltered_of_Filtered {C} (rhs : Filtered C) : ConstFiltered C :=
  mkConstFiltered (Filtered_filter rhs) (Filtered_cast rhs) (constBegin_ rhs).

(** The private constructor [ConstFiltered(filter, values)], through a
    temporary [Filtered]. *)
Definition ConstFiltered_ctor {C} (cast : KeyValuePair → C)
  (filter : KeyValuePair → bool) (values : Values) : ConstFiltered C :=
  let filtered := Filtered_ctor cast filter values in
  mkConstFiltered filter cast (constBegin_ filtered).

(** [for (it = begin; it != end; ++it) s = body( *it, s )] over a filtered
    and transformed range.  Every increment drops at least one entry, so
    the length of the starting position bounds the number of rounds. *)
Fixpoint for_loop {C S} (rounds : nat) (f : KeyValuePair → bool)
  (cast : KeyValuePair → C) (it : list KeyValuePair)
  (body : C → S → S) (s : S) : S :=
  match rounds with
  | O => s
  | Datatypes.S n =>
      match it with
      | [] => s
      | key_value :: _ =>
          for_loop n f cast (increment f it) body (body (cast key_value) s)
      end
  end.

(** [Filtered::size()], over [beginConst()] .. [endConst()].  The counter
    is a [size_t]; it never exceeds the number of entries held in memory. *)
Definition Filtered_size {C} (view : Filtered C) : N :=
  for_loop (length (constBegin_ view)) (Filtered_filter view)
    (Filtered_cast view) (constBegin_ view) (λ _ i, N.succ i) 0%N.

(** [ConstFiltered::size()] *)
Definition ConstFiltered_size {C} (view : ConstFiltered C) : N :=
  for_loop (length (ConstFiltered_begin_ view)) (ConstFiltered_filter view)
    (ConstFiltered_cast view) (ConstFiltered_begin_ view) (λ _ i, N.succ i) 0%N.

(** [ConstFiltered::keys()] *)
Definition ConstFiltered_keys {C} (view : ConstFiltered C) (key : C → Key)
  : list Key :=
  for_loop (length (ConstFiltered_begin_ view)) (ConstFiltered_filter view)
    (ConstFiltered_cast view) (ConstFiltered_begin_ view)
    (λ key_value result, result ++ [key key_value]) [].

(** Modelled from the spec: the general template
    [Values::filterHelper<ValueType>] declared in Values.h.  It combines
    the caller's key predicate with the type filter: entries whose stored
    type is not [ValueType] are excluded. *)
Definition filterHelper (T : ValueType) (filter : Key → bool)
  (key_value : KeyValuePair) : bool :=
  filter key_value.1 && bool_decide (is_Some (dynamic_cast T key_value.2)).

(** [Values::filterHelper<Value>]: the key predicate only. *)
Definition filterHelper_Value (filter : Key → bool) (key_value : KeyValuePair)
  : bool :=
  filter key_value.1.

(** [Values::filter<ValueType>(filterFcn)] *)
Definition filter (T : ValueType) (filterFcn : Key → bool) (this : Values)
  : Filtered (Key * payload) :=
  Filtered_ctor ValuesCastHelper_cast (filterHelper T filterFcn) this.

(** [Values::filter<ValueType>(filterFcn) const] *)
Definition filter_const (T : ValueType) (filterFcn : Key → bool) (this : Values)
  : ConstFiltered (Key * payload) :=
  ConstFiltered_ctor ValuesCastHelper_cast (filterHelper T filterFcn) this.

(** [Values::filter(filterFcn)], that is [filter<Value>(filterFcn)] *)
Definition filter_Value (filterFcn : Key → bool) (this : Values)
  : Filtered KeyValuePair :=
  Filtered_ctor ValuesCastHelper_Value_cast (filterHelper_Value filterFcn) this.

(** [BOOST_FOREACH(key_value, view) insert(key_value.key, key_value.value)]
    in a constructor: the first insertion that throws ends the loop and
    the construction. *)
Fixpoint foreach_insert (rounds : nat) (T : ValueType)
  (f : KeyValuePair → bool) (cast : KeyValuePair → Key * payload)
  (it : list KeyValuePair) (this : Values) : result Values :=
  match rounds with
  | O => Return this
  | Datatypes.S n =>
      match it with
      | [] => Return this
      | key_value :: _ =>
          let key := (cast key_value).1 in
          match insert T key (cast key_value).2 this with
          | (Return _, this') =>
              foreach_insert n T f cast (increment f it) this'
          | (Throw e, _) => Throw e
          end
      end
  end.

(** [Values::Values(const Filtered<ValueType>& view)] *)
Definition Values_of_Filtered (T : ValueType) (view : Filtered (Key * payload))
  : result Values :=
  foreach_insert (length (begin_ view)) T (Filtered_filter view)
    (Filtered_cast view) (begin_ view) ∅.

(** [Values::Values(const ConstFiltered<ValueType>& view)] *)
Definition Values_of_ConstFiltered (T : ValueType)
  (view : ConstFiltered (Key * payload)) : result Values :=
  foreach_insert (length (ConstFiltered_begin_ view)) T
    (ConstFiltered_filter view) (ConstFiltered_cast view)
    (ConstFiltered_begin_ view) ∅.

End Container.

Arguments mutation : clear implicits.
Arguments Filtered : clear implicits.
Arguments ConstFiltered : clear implicits.
Arguments mkFiltered {double object C}.
Arguments Filtered_filter {double object C}.
Arguments Filtered_cast {double object C}.
Arguments begin_ {double object C}.
Arguments constBegin_ {double object C}.
Arguments mkConstFiltered {double object C}.
Arguments ConstFiltered_filter {double object C}.
Arguments ConstFiltered_cast {double object C}.
Arguments ConstFiltered_begin_ {double object C}.

(** ** Notions used to state the properties *)

Section Notions.

Context {double object : Type}.

Abbreviation payload := (payload double object).
Abbreviation Value := (Value double object).
Abbreviation KeyValuePair := (Key * Value)%type.
Abbreviation Values := (gmap Key Value).
Abbreviation Filtered := (Filtered double object).
Abbreviation ConstFiltered := (ConstFiltered double object).

(** The sequence of casted pairs that a traversal of the view from
    [begin()] to [end()] dereferences. *)
Definition Filtered_range {C} (view : Filtered C) : list C :=
  for_loop (length (begin_ view)) (Filtered_filter view) (Filtered_cast view)
    (begin_ view) (λ key_value out, out ++ [key_value]) [].

(** A numeric array type with a compile-time size: some dimension is
    fixed, the single column of a dynamic vector apart. *)
Definition fixed_size (T : ValueType) : bool :=
  match T with
  | Matrix M N => negb (M =? Dynamic) || negb ((N =? Dynamic) || (N =? 1))
  | Class _ => false
  end.

(** A fixed-length vector: [Eigen::Matrix<double, M, 1>] with a fixed [M]. *)
Definition fixed_vector (T : ValueType) : bool :=
  match T with
  | Matrix M N => negb (M =? Dynamic) && (N =? 1)
  | Class _ => false
  end.

(** A fixed-shape matrix of more than one column:
    [Eigen::Matrix<double, M, N>] with fixed [M] and [N]. *)
Definition fixed_matrix (T : ValueType) : bool :=
  match T with
  | Matrix M N =>
      negb (M =? Dynamic) && negb (N =? Dynamic) && negb (N =? 1)
  | Class _ => false
  end.

(** No holder of the container has a fixed-size numeric array type. *)
Definition stores_no_fixed_size (values_ : Values) : Prop :=
  ∀ j item, values_ !! j = Some item → fixed_size (stored_type item) = false.

(** Inserting a sequence of typed pairs one after the other, as the
    constructors from views do once the view is unfolded. *)
Fixpoint insert_all (T : ValueType) (l : list (Key * payload)) (this : Values)
  : result Values :=
  match l with
  | [] => Return this
  | key_value :: l' =>
      match insert T key_value.1 key_value.2 this with
      | (Return _, this') => insert_all T l' this'
      | (Throw e, _) => Throw e
      end
  end.

(** The holder that the templated [insert] stores for a casted pair. *)
Definition wrapped (T : ValueType) (key_value : Key * payload) : KeyValuePair :=
  (key_value.1, handle_wrap T key_value.1 key_value.2).

(** The entries that a copy of the view [filter<T>(pred)] holds: the
    wrapped casted pairs of the entries that pass the filter. *)
Definition copied (T : ValueType) (pred : Key → bool) (values_ : Values) : Values :=
  list_to_map (wrapped T <$> (ValuesCastHelper_cast <$>
    base.filter (λ kv, filterHelper T pred kv) (Values_begin values_))).

End Notions.

(** ** The remaining overload and further notions *)

Section Coverage.

Context {double object : Type}.

Abbreviation payload := (payload double object).
Abbreviation Value := (Value double object).
Abbreviation KeyValuePair := (Key * Value)%type.
Abbreviation Values := (gmap Key Value).
Abbreviation ConstFiltered := (ConstFiltered double object).

(** [Values::filter(filterFcn) const], that is
    [filter<Value>(filterFcn) const] *)
Definition filter_Value_const (filterFcn : Key → bool) (this : Values)
  : ConstFiltered KeyValuePair :=
  ConstFiltered_ctor ValuesCastHelper_Value_cast
    (filterHelper_Value filterFcn) this.

(** A type with a compile-time number of rows: the requests that
    [internal::handle] serves through its two fixed-size specialisations. *)
Definition fixed_rows (T : ValueType) : bool :=
  match T with
  | Matrix M _ => negb (M =? Dynamic)
  | Class _ => false
  end.

(** The filter of a typed view checks the stored type: the static cast of
    [ValuesCastHelper] is defined only on holders of the type of the view. *)
Definition checks_type (f : KeyValuePair → bool) (T : ValueType) : Prop :=
  ∀ key_value, f key_value = true → stored_type key_value.2 = T.

End Coverage.

(** ** A concrete container

    The example of the specification: key 1 holds a rotation by 0
    degrees, key 2 the vector (1, 2), key 3 a rotation by 90 degrees.
    Scalars and object states are integers here. *)

Definition Rot3 : ValueType := Class "Rot3".

Definition example : gmap N (Value Z Z) :=
  (insert Rot3 3%N (ObjectData 90)
     (insert VectorXd 2%N (MatrixData 2 1 [1; 2])
        (insert Rot3 1%N (ObjectData 0) ∅).2).2).2.

(** The example with the fixed-size vector (1, 2, 3) inserted under key 4. *)
Definition example_promoted : gmap N (Value Z Z) :=
  (insert Vector3 4%N (MatrixData 3 1 [1; 2; 3]) example).2.

(** * Properties *)

Section Properties.

Context {double object : Type}.

Abbreviation payload := (payload double object).
Abbreviation Value := (Value double object).
Abbreviation KeyValuePair := (Key * Value)%type.
Abbreviation Values := (gmap Key Value).
Abbreviation Filtered := (Filtered double object).
Abbreviation ConstFiltered := (ConstFiltered double object).

Implicit Types (T A B : ValueType) (j k : Key) (val : payload)
  (item : Value) (vs : Values).

(** ** The type check *)

Lemma dynamic_cast_same T val :
  dynamic_cast T (GenericValue T val) = Some (GenericValue T val).
Proof. unfold dynamic_cast. simpl. by rewrite decide_True. Qed.

Lemma dynamic_cast_other T item :
  stored_type item ≠ T → dynamic_cast T item = None.
Proof. intros Hne. unfold dynamic_cast. by rewrite decide_False. Qed.

Lemma dynamic_cast_Some T item gv :
  dynamic_cast T item = Some gv ↔ stored_type item = T ∧ gv = item.
Proof.
  unfold dynamic_cast. case_decide; split.
  - intros [= <-]. done.
  - intros [_ ->]. done.
  - done.
  - intros [? _]. done.
Qed.

Lemma at_present T j item vs :
  vs !! j = Some item →
  at_ T j vs =
    if decide (stored_type item = T) then Return (value item)
    else Throw (ValuesIncorrectType j (typeid item) (typeid_ValueType T)).
Proof.
  intros Hj. unfold at_, dynamic_cast. rewrite Hj. by case_decide.
Qed.

Lemma exists_present T j item vs :
  vs !! j = Some item →
  exists_ T j vs =
    if decide (stored_type item = T) then Return (Some (value item))
    else Throw (ValuesIncorrectType j (typeid item) (typeid_ValueType T)).
Proof.
  intros Hj. unfold exists_, dynamic_cast. rewrite Hj. by case_decide.
Qed.

(** ** Promotion by [handle_wrap] *)

Lemma value_handle_wrap T j val : value (handle_wrap T j val) = val.
Proof. destruct T as [M N|name]; simpl; [by destruct (N =? 1)|done]. Qed.

Lemma handle_wrap_not_fixed T j val :
  fixed_size (stored_type (handle_wrap T j val)) = false.
Proof. destruct T as [M N|name]; simpl; [by destruct (N =? 1)|done]. Qed.

Lemma handle_wrap_unchanged T j val :
  fixed_size T = false → handle_wrap T j val = GenericValue T val.
Proof.
  destruct T as [M N|name]; simpl; [|done].
  unfold VectorXd, MatrixXd, Dynamic. intros Hfix.
  destruct (Z.eqb_spec M (-1)) as [->|]; [|done].
  destruct (Z.eqb_spec N 1) as [->|]; [done|].
  destruct (Z.eqb_spec N (-1)) as [->|]; done.
Qed.

Lemma handle_wrap_fixed T j val :
  fixed_size T = true → stored_type (handle_wrap T j val) ≠ T.
Proof.
  intros Hfix Heq.
  pose proof (handle_wrap_not_fixed T j val) as Hnot. congruence.
Qed.

(** ** Iteration in key order *)

#[local] Instance key_le_trans : Transitive (@key_le double object).
Proof. intros x y z. unfold key_le. lia. Qed.

#[local] Instance key_le_total : Total (@key_le double object).
Proof. intros x y. unfold key_le. lia. Qed.

Lemma Values_begin_Permutation vs :
  Values_begin vs ≡ₚ map_to_list vs.
Proof. apply merge_sort_Permutation. Qed.

Lemma elem_of_Values_begin vs j item :
  (j, item) ∈ Values_begin vs ↔ vs !! j = Some item.
Proof. by rewrite Values_begin_Permutation, elem_of_map_to_list. Qed.

Lemma Values_begin_NoDup vs : NoDup (Values_begin vs).*1.
Proof.
  rewrite Values_begin_Permutation. apply NoDup_fst_map_to_list.
Qed.

Lemma key_le_sorted_ascending (l : list KeyValuePair) :
  StronglySorted key_le l → NoDup l.*1 → StronglySorted N.lt l.*1.
Proof.
  induction 1 as [|kv l Hl IH Hkv]; intros Hdup; simpl; [constructor|].
  apply NoDup_cons in Hdup as [Hnotin Hdup].
  constructor; [by apply IH|].
  apply Forall_fmap, Forall_forall. intros kv' Hin. simpl.
  rewrite Forall_forall in Hkv. specialize (Hkv _ Hin). unfold key_le in Hkv.
  assert (kv.1 ≠ kv'.1); [|lia].
  intros Heq. apply Hnotin. rewrite Heq. by apply list_elem_of_fmap_2.
Qed.

Lemma Values_begin_ascending vs :
  StronglySorted N.lt (Values_begin vs).*1.
Proof.
  apply key_le_sorted_ascending; [|apply Values_begin_NoDup].
  apply StronglySorted_merge_sort; apply _.
Qed.

(** ** Traversals of a filtered range *)

Lemma satisfy_predicate_length (f : KeyValuePair → bool) (l : list KeyValuePair) :
  (length (satisfy_predicate f l) ≤ length l)%nat.
Proof. induction l as [|kv l IH]; simpl; [done|]. destruct (f kv); simpl; lia. Qed.

Lemma filter_cons_bool {X} (f : X → bool) (x : X) (l : list X) :
  base.filter (λ y, f y) (x :: l) =
  if f x then x :: base.filter (λ y, f y) l else base.filter (λ y, f y) l.
Proof.
  rewrite filter_cons. cbv beta. destruct (f x).
  - by rewrite decide_True.
  - rewrite decide_False; [done|]. by intros [].
Qed.

(** With as many rounds as the starting position is long, the loop runs
    to the end of the range: it folds its body over the casted entries
    that satisfy the predicate, in the order of the container. *)
Lemma for_loop_filter {C S} (f : KeyValuePair → bool) (cast : KeyValuePair → C)
    (body : C → S → S) (l : list KeyValuePair) :
  ∀ (rounds : nat) (s : S),
    (length (satisfy_predicate f l) ≤ rounds)%nat →
    for_loop rounds f cast (satisfy_predicate f l) body s =
    foldl (λ s x, body x s) s (cast <$> base.filter (λ kv, f kv) l).
Proof.
  induction l as [|kv l IH]; intros rounds s Hlen.
  - by destruct rounds.
  - rewrite filter_cons_bool. simpl in *. destruct (f kv) eqn:Hf.
    + destruct rounds as [|n]; simpl in *; [lia|].
      apply IH. pose proof (satisfy_predicate_length f l). lia.
    + by apply IH.
Qed.

Lemma foldl_count {C} (l : list C) (i : N) :
  foldl (λ i _, N.succ i) i l = (i + N.of_nat (length l))%N.
Proof.
  revert i. induction l as [|x l IH]; intros i; simpl; [lia|].
  rewrite IH. lia.
Qed.

Lemma foldl_snoc {C} (l out : list C) :
  foldl (λ out x, out ++ [x]) out l = out ++ l.
Proof.
  revert out. induction l as [|x l IH]; intros out; simpl.
  - by rewrite app_nil_r.
  - by rewrite IH, <-app_assoc.
Qed.

Lemma Filtered_range_ctor {C} (cast : KeyValuePair → C) f vs :
  Filtered_range (Filtered_ctor cast f vs) =
  cast <$> base.filter (λ kv, f kv) (Values_begin vs).
Proof.
  unfold Filtered_range, Filtered_ctor, make_filter_iterator. simpl.
  rewrite for_loop_filter by done. apply (foldl_snoc _ []).
Qed.

Lemma Filtered_size_ctor {C} (cast : KeyValuePair → C) f vs :
  Filtered_size (Filtered_ctor cast f vs) =
  N.of_nat (length (base.filter (λ kv, f kv) (Values_begin vs))).
Proof.
  unfold Filtered_size, Filtered_ctor, make_filter_iterator. simpl.
  rewrite for_loop_filter by done. rewrite foldl_count, length_fmap. lia.
Qed.

Lemma foreach_insert_filter T (f : KeyValuePair → bool)
    (cast : KeyValuePair → Key * payload) (l : list KeyValuePair) :
  ∀ (rounds : nat) (this : Values),
    (length (satisfy_predicate f l) ≤ rounds)%nat →
    foreach_insert rounds T f cast (satisfy_predicate f l) this =
    insert_all T (cast <$> base.filter (λ kv, f kv) l) this.
Proof.
  induction l as [|kv l IH]; intros rounds this Hlen.
  - by destruct rounds.
  - rewrite filter_cons_bool. simpl in *. destruct (f kv) eqn:Hf.
    + destruct rounds as [|n]; simpl in *; [lia|].
      destruct (insert T (cast kv).1 (cast kv).2 this) as [[[]|e] this']; [|done].
      apply IH. pose proof (satisfy_predicate_length f l). lia.
    + by apply IH.
Qed.

(** ** Containers built from a view *)

Lemma wrapped_keys T (l : list (Key * payload)) : (wrapped T <$> l).*1 = l.*1.
Proof. rewrite <-list_fmap_compose. by apply list_fmap_ext. Qed.

Lemma insert_all_fresh T (l : list (Key * payload)) :
  ∀ this : Values,
    NoDup l.*1 →
    (∀ k, k ∈ l.*1 → this !! k = None) →
    insert_all T l this = Return (list_to_map (wrapped T <$> l) ∪ this).
Proof.
  induction l as [|kv l IH]; intros this Hdup Hfresh; simpl.
  - by rewrite (left_id_L ∅ (∪)).
  - apply NoDup_cons in Hdup as [Hnotin Hdup].
    unfold insert, insert_Value. cbv beta.
    rewrite (Hfresh kv.1) by (simpl; left).
    rewrite IH; [|done|].
    + f_equal. rewrite <-insert_union_l. symmetry. apply insert_union_r.
      apply not_elem_of_list_to_map_1. by rewrite wrapped_keys.
    + intros k Hk. rewrite lookup_insert_ne; [|by intros <-].
      apply Hfresh. simpl. by right.
Qed.

Lemma filter_keys_NoDup (f : KeyValuePair → bool) vs :
  NoDup (base.filter (λ kv, f kv) (Values_begin vs)).*1.
Proof.
  eapply sublist_NoDup; [apply Values_begin_NoDup|].
  apply fmap_sublist, sublist_filter.
Qed.

Lemma Values_of_Filtered_filter T (pred : Key → bool) vs :
  Values_of_Filtered T (filter T pred vs) = Return (copied T pred vs).
Proof.
  unfold Values_of_Filtered, filter, Filtered_ctor, make_filter_iterator. simpl.
  rewrite foreach_insert_filter by done.
  rewrite insert_all_fresh.
  - by rewrite (right_id_L ∅ (∪)).
  - rewrite <-list_fmap_compose. apply (filter_keys_NoDup (filterHelper T pred)).
  - intros k _. apply lookup_empty.
Qed.

Lemma Values_of_ConstFiltered_filter T (pred : Key → bool) vs :
  Values_of_ConstFiltered T (filter_const T pred vs) = Return (copied T pred vs).
Proof.
  unfold Values_of_ConstFiltered, filter_const, ConstFiltered_ctor,
    Filtered_ctor, make_filter_iterator. simpl.
  rewrite foreach_insert_filter by done.
  rewrite insert_all_fresh.
  - by rewrite (right_id_L ∅ (∪)).
  - rewrite <-list_fmap_compose. apply (filter_keys_NoDup (filterHelper T pred)).
  - intros k _. apply lookup_empty.
Qed.

Lemma filterHelper_true T (pred : Key → bool) k item :
  filterHelper T pred (k, item) = true ↔ pred k = true ∧ stored_type item = T.
Proof.
  unfold filterHelper, dynamic_cast. simpl.
  rewrite andb_true_iff, bool_decide_eq_true. split.
  - intros [Hpred [gv Hgv]]. split; [done|]. by case_decide.
  - intros [Hpred HT]. split; [done|]. rewrite decide_True by done. eauto.
Qed.

Lemma lookup_copied T (pred : Key → bool) vs k item' :
  copied T pred vs !! k = Some item' ↔
  ∃ item, vs !! k = Some item ∧ pred k = true ∧ stored_type item = T ∧
          item' = handle_wrap T k (value item).
Proof.
  unfold copied. rewrite <-elem_of_list_to_map.
  - rewrite list_elem_of_fmap. split.
    + intros ([k' val] & [= -> ->] & Hin).
      apply list_elem_of_fmap in Hin as ([k'' item] & [= -> ->] & Hin).
      apply list_elem_of_filter in Hin as [Hf Hin]. simpl in *.
      apply Is_true_true, filterHelper_true in Hf as [Hpred HT].
      apply elem_of_Values_begin in Hin. by exists item.
    + intros (item & Hk & Hpred & HT & ->).
      exists (k, value item). split; [done|].
      apply list_elem_of_fmap. exists (k, item). split; [done|].
      apply list_elem_of_filter. split.
      * apply Is_true_true, filterHelper_true. done.
      * by apply elem_of_Values_begin.
  - rewrite wrapped_keys, <-list_fmap_compose.
    apply (filter_keys_NoDup (filterHelper T pred)).
Qed.

(** ** The invariant of promotion *)

Lemma stores_no_fixed_size_empty : stores_no_fixed_size (∅ : Values).
Proof. intros j item. by rewrite lookup_empty. Qed.

Lemma stores_no_fixed_size_insert_Value j item vs :
  fixed_size (stored_type item) = false →
  stores_no_fixed_size vs →
  stores_no_fixed_size (insert_Value j item vs).2.
Proof.
  intros Hitem Hvs. unfold insert_Value.
  destruct (vs !! j) eqn:Hj; simpl; [done|].
  intros j' item'. rewrite lookup_insert.
  case_decide; [by intros [= <-]|apply Hvs].
Qed.

Lemma stores_no_fixed_size_update_Value j item vs :
  fixed_size (stored_type item) = false →
  stores_no_fixed_size vs →
  stores_no_fixed_size (update_Value j item vs).2.
Proof.
  intros Hitem Hvs. unfold update_Value.
  destruct (vs !! j) eqn:Hj; simpl; [|done].
  intros j' item'. rewrite lookup_insert.
  case_decide; [by intros [= <-]|apply Hvs].
Qed.

Lemma stores_no_fixed_size_erase j vs :
  stores_no_fixed_size vs → stores_no_fixed_size (erase j vs).2.
Proof.
  intros Hvs. unfold erase. destruct (vs !! j) eqn:Hj; simpl; [|done].
  intros j' item'. rewrite lookup_delete.
  case_decide; [done|apply Hvs].
Qed.

Lemma handle_wrap_fixed_vector T j val :
  fixed_vector T = true → handle_wrap T j val = GenericValue VectorXd val.
Proof.
  destruct T as [M N|name]; simpl; [|done].
  intros [_ ->]%andb_true_iff. done.
Qed.

Lemma handle_wrap_fixed_matrix T j val :
  fixed_matrix T = true → handle_wrap T j val = GenericValue MatrixXd val.
Proof.
  destruct T as [M N|name]; simpl; [|done].
  intros [_ HN]%andb_true_iff. by destruct (N =? 1).
Qed.

Lemma stores_no_fixed_size_copied T (pred : Key → bool) vs :
  stores_no_fixed_size (copied T pred vs).
Proof.
  intros k item' (item & _ & _ & _ & ->)%lookup_copied.
  apply handle_wrap_not_fixed.
Qed.

(** ** Round trips through [insert] and [at] *)

Lemma insert_fresh T j val vs :
  vs !! j = None →
  insert T j val vs = (Return (), <[j := handle_wrap T j val]> vs).
Proof. intros Hj. unfold insert, insert_Value. by rewrite Hj. Qed.

Lemma update_present T j val vs :
  is_Some (vs !! j) →
  update T j val vs = (Return (), <[j := handle_wrap T j val]> vs).
Proof. intros [item Hj]. unfold update, update_Value. by rewrite Hj. Qed.

(** For a type that [handle_wrap] leaves alone (a class, a dynamic vector
    or a dynamic matrix), [at] returns what [insert] stored. *)
Lemma insert_at_round_trip T j val vs :
  fixed_size T = false → vs !! j = None →
  at_ T j (insert T j val vs).2 = Return val.
Proof.
  intros Hfix Hj. rewrite insert_fresh by done. simpl.
  rewrite handle_wrap_unchanged by done.
  erewrite at_present by apply lookup_insert_eq. simpl.
  by rewrite decide_True.
Qed.

(** For a fixed-size type the same round trip throws: the holder was
    promoted, and [at] asks for the type as requested. *)
Lemma insert_at_fixed_size T j val vs :
  fixed_size T = true → vs !! j = None →
  at_ T j (insert T j val vs).2 =
  Throw (ValuesIncorrectType j (typeid (handle_wrap T j val)) (typeid_ValueType T)).
Proof.
  intros Hfix Hj. rewrite insert_fresh by done. simpl.
  erewrite at_present by apply lookup_insert_eq.
  rewrite decide_False; [done|]. by apply handle_wrap_fixed.
Qed.

(** ** [internal::handle], which [at] does not call *)

(** On a type that is not fixed-size, [handle] is the plain type check. *)
Lemma handle_not_fixed T j item :
  fixed_size T = false → handle T j item = handle_exact T j item.
Proof.
  destruct T as [M N|name]; simpl; [|done].
  destruct (Z.eqb_spec M Dynamic) as [->|]; done.
Qed.

(** On a fixed-length vector request, [handle] accepts the promoted
    holder when the stored length is the requested one and reports the
    two shapes otherwise. *)
Lemma handle_after_promotion M j r (coeffs : list double) :
  M ≠ Dynamic →
  let val : payload := MatrixData r 1 coeffs in
  handle (Matrix M 1) j (handle_wrap (Matrix M 1) j val) =
  if r =? M then Return val else Throw (NoMatchFoundForFixed M 1 r 1).
Proof.
  intros HM. simpl. destruct (Z.eqb_spec M Dynamic) as [|_]; [done|].
  unfold handle_fixed, handle_exact.
  rewrite dynamic_cast_other by (simpl; unfold VectorXd; congruence).
  rewrite dynamic_cast_same. simpl. by destruct (r =? M).
Qed.

(** The same for a fixed-shape matrix of more than one column. *)
Lemma handle_matrix_after_promotion M N j r c (coeffs : list double) :
  M ≠ Dynamic → N ≠ 1 →
  let val : payload := MatrixData r c coeffs in
  handle (Matrix M N) j (handle_wrap (Matrix M N) j val) =
  if (r =? M) && (c =? N) then Return val
  else Throw (NoMatchFoundForFixed M N r c).
Proof.
  intros HM HN. simpl.
  destruct (Z.eqb_spec M Dynamic) as [|_]; [done|].
  destruct (Z.eqb_spec N 1) as [|_]; [done|].
  unfold handle_fixed, handle_exact.
  rewrite dynamic_cast_other by (simpl; unfold MatrixXd; congruence).
  rewrite dynamic_cast_same. simpl.
  by destruct (r =? M), (c =? N).
Qed.

(** The promotion round trip through [handle]: a vector of length 3 is
    returned to a request for length 3, and a request for length 4
    reports the shapes (4, 1) and (3, 1). *)
Lemma handle_Vector3_after_insert j (a b c : double) :
  let val : payload := MatrixData 3 1 [a; b; c] in
  handle Vector3 j (handle_wrap Vector3 j val) = Return val ∧
  handle Vector4 j (handle_wrap Vector3 j val) =
    Throw (NoMatchFoundForFixed 4 1 3 1).
Proof. done. Qed.

(** ** Views in key order *)

Lemma filter_keys_ascending (f : KeyValuePair → bool) (l : list KeyValuePair) :
  StronglySorted N.lt l.*1 →
  StronglySorted N.lt (base.filter (λ kv, f kv) l).*1.
Proof.
  induction l as [|kv l IH]; [done|]. simpl.
  intros [Hkv Hl]%StronglySorted_cons. rewrite filter_cons_bool.
  destruct (f kv); [|by apply IH].
  simpl. apply StronglySorted_cons. split; [|by apply IH].
  rewrite Forall_forall in Hkv. apply Forall_forall. intros key' Hin.
  apply Hkv.
  apply list_elem_of_fmap in Hin as (kv' & -> & Hin).
  apply list_elem_of_filter in Hin as [_ Hin].
  by apply list_elem_of_fmap_2.
Qed.

(** The read-only view traverses the same range as the mutable one. *)
Lemma ConstFiltered_size_filter T (pred : Key → bool) vs :
  ConstFiltered_size (filter_const T pred vs) = Filtered_size (filter T pred vs) ∧
  ConstFiltered_size (ConstFiltered_of_Filtered (filter T pred vs)) =
    Filtered_size (filter T pred vs).
Proof. done. Qed.

Lemma ConstFiltered_keys_filter T (pred : Key → bool) vs :
  ConstFiltered_keys (filter_const T pred vs) fst =
  (Filtered_range (filter T pred vs)).*1.
Proof.
  unfold filter. rewrite Filtered_range_ctor.
  unfold ConstFiltered_keys, filter_const, ConstFiltered_ctor, Filtered_ctor,
    make_filter_iterator. simpl.
  rewrite for_loop_filter by done.
  generalize (ValuesCastHelper_cast <$>
    base.filter (λ kv, filterHelper T pred kv) (Values_begin vs)).
  intros l.
  assert (∀ out : list Key,
    foldl (λ (s : list Key) (x : Key * payload), s ++ [x.1]) out l =
    out ++ l.*1) as Hfold.
  { induction l as [|x l IH]; intros out; simpl.
    - by rewrite app_nil_r.
    - by rewrite IH, <-app_assoc. }
  apply (Hfold []).
Qed.

(** The untyped view [filter(pred)] keeps the entries whose key satisfies
    the predicate, holders included. *)
Lemma filter_Value_range (pred : Key → bool) vs k item :
  (k, item) ∈ Filtered_range (filter_Value pred vs) ↔
  vs !! k = Some item ∧ pred k = true.
Proof.
  unfold filter_Value. rewrite Filtered_range_ctor.
  rewrite list_elem_of_fmap. split.
  - intros ([k' item'] & [= -> ->] & Hin).
    apply list_elem_of_filter in Hin as [Hf Hin].
    apply elem_of_Values_begin in Hin. split; [done|].
    by apply Is_true_true in Hf.
  - intros [Hk Hpred]. exists (k, item). split; [done|].
    apply list_elem_of_filter. split.
    + by apply Is_true_true.
    + by apply elem_of_Values_begin.
Qed.

(** ** Counting the entries of a type *)

Lemma filter_Values_begin_length (f : KeyValuePair → bool) (P : KeyValuePair → Prop)
    `{!∀ kv, Decision (P kv)} vs :
  (∀ kv, f kv = true ↔ P kv) →
  length (base.filter (λ kv, f kv) (Values_begin vs)) = size (base.filter P vs).
Proof.
  intros HfP.
  rewrite (list_filter_iff (λ kv, f kv) P) by (intros kv; by rewrite Is_true_true).
  rewrite Values_begin_Permutation.
  rewrite <-length_map_to_list, map_filter_alt.
  apply Permutation_length. symmetry. apply map_to_list_to_map.
  eapply sublist_NoDup; [apply (NoDup_fst_map_to_list vs)|].
  apply fmap_sublist, sublist_filter.
Qed.

(** * The properties of the specification *)

(** C1 (as the code behaves): after inserting a fixed-size vector of
    length 3 under [k], [at] requesting the fixed-size-3 type does not
    return the vector, and requesting the fixed-size-4 type does not
    report a shape mismatch.  The holder was stored as a dynamic vector
    and [at] compares the requested type with the stored one, so both
    requests throw [ValuesIncorrectType]. *)
Theorem at_Vector3_after_insert k (a b c : double) :
  let val : payload := MatrixData 3 1 [a; b; c] in
  let vs := (insert Vector3 k val ∅).2 in
  at_ Vector3 k vs =
    Throw (ValuesIncorrectType k (typeid_GenericValue VectorXd)
             (typeid_ValueType Vector3)) ∧
  at_ Vector4 k vs =
    Throw (ValuesIncorrectType k (typeid_GenericValue VectorXd)
             (typeid_ValueType Vector4)).
Proof.
  intros val vs. subst vs. rewrite insert_fresh by apply lookup_empty. simpl.
  split; erewrite at_present by apply lookup_insert_eq; done.
Qed.

(** C2 (as the code behaves): the round trip of [insert] and [at] fails
    for a fixed-shape matrix.  Inserting a 2x2 matrix into the empty
    container and asking for it back at the same type throws
    [ValuesIncorrectType]. *)
Theorem insert_at_Matrix2 k (a b c d : double) :
  let val : payload := MatrixData 2 2 [a; b; c; d] in
  at_ (Matrix 2 2) k (insert (Matrix 2 2) k val ∅).2 =
  Throw (ValuesIncorrectType k (typeid_GenericValue MatrixXd)
           (typeid_ValueType (Matrix 2 2))).
Proof.
  intros val. rewrite insert_at_fixed_size; [done|done|apply lookup_empty].
Qed.

(** C3: a fixed-length vector passed to [insert] or [update] is stored in
    a holder of the dynamic vector type, a fixed-shape matrix in a holder
    of the dynamic matrix type, with the payload as passed; and no
    [insert] or [update], of any type, makes the container store a holder
    of a fixed-size numeric array type. *)
Theorem fixed_size_stored_as_dynamic T D k val vs :
  fixed_vector T = true ∧ D = VectorXd ∨ fixed_matrix T = true ∧ D = MatrixXd →
  (vs !! k = None →
     insert T k val vs = (Return (), <[k := GenericValue D val]> vs)) ∧
  (is_Some (vs !! k) →
     update T k val vs = (Return (), <[k := GenericValue D val]> vs)) ∧
  (∀ T' k' val',
     stores_no_fixed_size vs →
     stores_no_fixed_size (insert T' k' val' vs).2 ∧
     stores_no_fixed_size (update T' k' val' vs).2).
Proof.
  intros Hfixed.
  assert (handle_wrap T k val = GenericValue D val) as Hwrap.
  { destruct Hfixed as [[HT ->]|[HT ->]].
    - by apply handle_wrap_fixed_vector.
    - by apply handle_wrap_fixed_matrix. }
  split; [|split].
  - intros Hk. by rewrite insert_fresh, Hwrap.
  - intros Hk. by rewrite update_present, Hwrap.
  - intros T' k' val' Hvs. split.
    + apply stores_no_fixed_size_insert_Value; [apply handle_wrap_not_fixed|done].
    + apply stores_no_fixed_size_update_Value; [apply handle_wrap_not_fixed|done].
Qed.

(** C4: [exists<T>(k)] returns an empty result, and throws nothing, when
    [k] is absent; it throws [ValuesIncorrectType] when [k] is present with
    a holder whose stored type is not [T]. *)
Theorem exists_absent_or_wrong_type T k vs :
  (vs !! k = None → exists_ T k vs = Return None) ∧
  (∀ item, vs !! k = Some item → stored_type item ≠ T →
     exists_ T k vs =
     Throw (ValuesIncorrectType k (typeid_GenericValue (stored_type item))
              (typeid_ValueType T))).
Proof.
  split.
  - intros Hk. unfold exists_. by rewrite Hk.
  - intros item Hk Hne. rewrite (exists_present T k item) by done.
    by rewrite decide_False.
Qed.

(** C5: the view [filter<T>] with the always-true predicate yields
    exactly the entries whose stored type is [T], by ascending key, and
    its [size()] is the number of those entries. *)
Theorem filter_always_true T vs :
  let view := filter T (λ _, true) vs in
  (∀ k val, (k, val) ∈ Filtered_range view ↔
            vs !! k = Some (GenericValue T val)) ∧
  StronglySorted N.lt (Filtered_range view).*1 ∧
  Filtered_size view =
    N.of_nat (size (base.filter (λ kv, stored_type kv.2 = T) vs)).
Proof.
  intros view. subst view. unfold filter.
  rewrite Filtered_range_ctor, Filtered_size_ctor. split; [|split].
  - intros k val. rewrite list_elem_of_fmap. split.
    + intros ([k' item] & [= -> ->] & Hin).
      apply list_elem_of_filter in Hin as [Hf Hin]. simpl in *.
      apply Is_true_true, filterHelper_true in Hf as [_ HT].
      apply elem_of_Values_begin in Hin. by destruct item; simplify_eq/=.
    + intros Hk. exists (k, GenericValue T val). split; [done|].
      apply list_elem_of_filter. split.
      * by apply Is_true_true, filterHelper_true.
      * by apply elem_of_Values_begin.
  - rewrite <-list_fmap_compose.
    apply filter_keys_ascending, Values_begin_ascending.
  - f_equal. apply filter_Values_begin_length.
    intros [k item]. rewrite filterHelper_true. simpl.
    split; [by intros [_ ?]|by intros ?].
Qed.

(** The holder built by [handle_wrap], by the shape of the type. *)
Lemma handle_wrap_holder T j val :
  handle_wrap T j val =
  GenericValue
    match T with
    | Matrix _ 1 => VectorXd
    | Matrix _ _ => MatrixXd
    | Class name => Class name
    end val.
Proof.
  destruct T as [M N|name]; simpl; [|done].
  destruct (Z.eqb_spec N 1) as [->|HN]; [done|].
  destruct N as [|[]|]; done.
Qed.

(** On a container without fixed-size holders no entry has a fixed-size
    stored type, so the copy of a view of such a type is empty, as is the
    restriction of the source to that type. *)
Lemma copied_restriction T (pred : Key → bool) vs :
  fixed_size T = false ∨ stores_no_fixed_size vs →
  copied T pred vs =
  base.filter (λ kv, stored_type kv.2 = T ∧ pred kv.1 = true) vs.
Proof.
  intros Hcase.
  assert (∀ k item, vs !! k = Some item → stored_type item = T →
                    fixed_size T = false) as Hfix.
  { intros k item Hk HT. destruct Hcase as [|Hinv]; [done|].
    rewrite <-HT. by apply (Hinv k). }
  apply map_eq. intros k. apply option_eq. intros item'.
  rewrite lookup_copied, map_lookup_filter_Some. simpl. split.
  - intros (item & Hk & Hpred & HT & ->).
    rewrite handle_wrap_unchanged by (by apply (Hfix k item)).
    destruct item as [A val]. simpl in *. by subst A.
  - intros (Hk & HT & Hpred). exists item'. split; [done|].
    split; [done|]. split; [done|].
    rewrite handle_wrap_unchanged by (by apply (Hfix k item')).
    destruct item' as [A val]. simpl in *. by subst A.
Qed.

(** C6: a container constructed from the view [filter<T>(pred)] over [vs]
    has as its keys exactly the keys of [vs] whose stored type is [T] and
    that satisfy [pred], and holds under each of them a clone of what [vs]
    holds there.  Both constructors, from [Filtered] and from
    [ConstFiltered], return that container and do not throw.  The copy
    holds an entry exactly for each entry of [vs] with a holder
    [GenericValue T val] and a key satisfying [pred], and holds there the
    payload [val] in the holder that the typed [insert] stores for [T].
    Whenever [T] is not a fixed-size numeric array type, or [vs] holds no
    holder of such a type (which is the case of every container built by
    the typed [insert] and [update]), that holder is the one of [vs]: the
    copy is the restriction of [vs], holder for holder. *)
Theorem copy_of_filtered_view T (pred : Key → bool) vs :
  ∃ C' : Values,
    Values_of_Filtered T (filter T pred vs) = Return C' ∧
    Values_of_ConstFiltered T (filter_const T pred vs) = Return C' ∧
    dom C' =@{gset Key}
      dom (base.filter (λ kv, stored_type kv.2 = T ∧ pred kv.1 = true) vs) ∧
    (∀ k item', C' !! k = Some item' →
       ∃ item, vs !! k = Some item ∧ value item' = value item) ∧
    (∀ k item',
       C' !! k = Some item' ↔
       ∃ val, vs !! k = Some (GenericValue T val) ∧ pred k = true ∧
              item' = GenericValue
                        match T with
                        | Matrix _ 1 => VectorXd
                        | Matrix _ _ => MatrixXd
                        | Class name => Class name
                        end val) ∧
    (fixed_size T = false ∨ stores_no_fixed_size vs →
     C' = base.filter (λ kv, stored_type kv.2 = T ∧ pred kv.1 = true) vs ∧
     ∀ k item', C' !! k = Some item' → vs !! k = Some item').
Proof.
  exists (copied T pred vs). split; [|split; [|split; [|split; [|split]]]].
  - apply Values_of_Filtered_filter.
  - apply Values_of_ConstFiltered_filter.
  - apply set_eq. intros k. rewrite !elem_of_dom. unfold is_Some.
    setoid_rewrite lookup_copied. setoid_rewrite map_lookup_filter_Some.
    simpl. split.
    + intros (item' & item & Hk & Hpred & HT & _). by exists item.
    + intros (item & Hk & HT & Hpred).
      exists (handle_wrap T k (value item)), item. done.
  - intros k item' (item & Hk & _ & _ & ->)%lookup_copied.
    exists item. by rewrite value_handle_wrap.
  - intros k item'. rewrite lookup_copied. split.
    + intros ([A val] & Hk & Hpred & HT & ->). simpl in *. subst A.
      exists val. by rewrite handle_wrap_holder.
    + intros (val & Hk & Hpred & ->). exists (GenericValue T val).
      by rewrite handle_wrap_holder.
  - intros Hcase. rewrite (copied_restriction T pred vs Hcase).
    split; [done|]. intros k item' Hk.
    by apply map_lookup_filter_Some in Hk as [Hk _].
Qed.

(** C7: when [k] holds a value of stored type [A], [at<B>(k)] for another
    type [B] throws [ValuesIncorrectType] with [k], the identity of the
    stored holder of an [A], and the identity of the requested [B].  Any
    two unrelated types are in particular distinct. *)
Theorem at_unrelated_type A B k val vs :
  vs !! k = Some (GenericValue A val) → A ≠ B →
  at_ B k vs =
  Throw (ValuesIncorrectType k (typeid_GenericValue A) (typeid_ValueType B)).
Proof.
  intros Hk Hne. rewrite (at_present B k (GenericValue A val)) by done.
  by rewrite decide_False.
Qed.

(** C8: on an absent key, [at], [update] and [erase] each throw
    [ValuesKeyDoesNotExist] with the name of the operation and the key,
    leaving the container as it was, while [exists] returns the empty
    result. *)
Theorem absent_key T k val vs :
  vs !! k = None →
  at_ T k vs = Throw (ValuesKeyDoesNotExist "at" k) ∧
  update T k val vs = (Throw (ValuesKeyDoesNotExist "update" k), vs) ∧
  erase k vs = (Throw (ValuesKeyDoesNotExist "erase" k), vs) ∧
  exists_ T k vs = Return None.
Proof.
  intros Hk. unfold at_, update, update_Value, erase, exists_.
  by rewrite Hk.
Qed.

(** C9: [insert] under a key that is already present throws
    [DuplicateKey] and leaves the container unchanged. *)
Theorem insert_duplicate T k val vs :
  is_Some (vs !! k) →
  insert T k val vs = (Throw (DuplicateKey k), vs).
Proof. intros [item Hk]. unfold insert, insert_Value. by rewrite Hk. Qed.

(** C10: on a present key [exists<T>] is [at<T>] with its result made
    optional: when [at] returns a value, [exists] returns that value as a
    non-empty result, and when [at] throws [ValuesIncorrectType], [exists]
    throws the same exception. *)
Theorem exists_agrees_with_at T k vs :
  is_Some (vs !! k) →
  exists_ T k vs = bind (at_ T k vs) (λ val, Return (Some val)) ∧
  (∀ val, at_ T k vs = Return val → exists_ T k vs = Return (Some val)) ∧
  (∀ k' stored requested,
     at_ T k vs = Throw (ValuesIncorrectType k' stored requested) →
     exists_ T k vs = Throw (ValuesIncorrectType k' stored requested)).
Proof.
  intros [item Hk].
  assert (exists_ T k vs = bind (at_ T k vs) (λ val, Return (Some val))) as Heq.
  { rewrite (at_present T k item), (exists_present T k item) by done.
    by case_decide. }
  split; [done|]. split.
  - intros val Hat. by rewrite Heq, Hat.
  - intros k' stored requested Hat. by rewrite Heq, Hat.
Qed.

End Properties.

(** * The properties on a concrete container *)

Lemma example_stores_no_fixed_size : stores_no_fixed_size example.
Proof.
  unfold example, insert.
  repeat (apply stores_no_fixed_size_insert_Value;
          [apply handle_wrap_not_fixed|]).
  apply stores_no_fixed_size_empty.
Qed.

Lemma fixed_size_stored_as_dynamic_witness :
  fixed_vector Vector3 = true ∧
  example !! 4%N = None ∧
  insert Vector3 4%N (MatrixData 3 1 [1; 2; 3]) example =
    (Return (), <[4%N := GenericValue VectorXd (MatrixData 3 1 [1; 2; 3])]> example) ∧
  fixed_matrix (Matrix 2 2) = true ∧
  is_Some (example !! 2%N) ∧
  update (Matrix 2 2) 2%N (MatrixData 2 2 [1; 2; 3; 4]) example =
    (Return (), <[2%N := GenericValue MatrixXd (MatrixData 2 2 [1; 2; 3; 4])]> example) ∧
  stores_no_fixed_size example ∧
  stores_no_fixed_size (insert (Matrix 2 2) 4%N (MatrixData 2 2 [1; 2; 3; 4]) example).2 ∧
  stores_no_fixed_size (update Vector3 2%N (MatrixData 3 1 [1; 2; 3]) example).2.
Proof.
  assert (is_Some (example !! 2%N)) as Hk by (eexists; reflexivity).
  pose proof (fixed_size_stored_as_dynamic Vector3 VectorXd 4%N
                (MatrixData 3 1 [1; 2; 3]) example
                (or_introl (conj eq_refl eq_refl))) as (Hinsert & _ & Hinv).
  pose proof (fixed_size_stored_as_dynamic (Matrix 2 2) MatrixXd 2%N
                (MatrixData 2 2 [1; 2; 3; 4]) example
                (or_intror (conj eq_refl eq_refl))) as (_ & Hupdate & _).
  split; [reflexivity|]. split; [reflexivity|].
  split; [apply Hinsert; reflexivity|].
  split; [reflexivity|]. split; [exact Hk|].
  split; [apply Hupdate, Hk|].
  split; [apply example_stores_no_fixed_size|].
  split.
  - apply (Hinv (Matrix 2 2) 4%N (MatrixData 2 2 [1; 2; 3; 4])),
      example_stores_no_fixed_size.
  - apply (Hinv Vector3 2%N (MatrixData 3 1 [1; 2; 3])),
      example_stores_no_fixed_size.
Defined.

Lemma exists_absent_or_wrong_type_witness :
  (example !! 5%N = None ∧ exists_ Rot3 5%N example = Return None) ∧
  (example !! 2%N = Some (GenericValue VectorXd (MatrixData 2 1 [1; 2])) ∧
   VectorXd ≠ Rot3 ∧
   exists_ Rot3 2%N example =
   Throw (ValuesIncorrectType 2 (typeid_GenericValue VectorXd)
            (typeid_ValueType Rot3))).
Proof.
  split.
  - split; [reflexivity|].
    apply (proj1 (exists_absent_or_wrong_type Rot3 5%N example)). reflexivity.
  - split; [reflexivity|]. split; [discriminate|].
    apply (proj2 (exists_absent_or_wrong_type Rot3 2%N example)
             (GenericValue VectorXd (MatrixData 2 1 [1; 2]))).
    + reflexivity.
    + discriminate.
Defined.

Lemma at_unrelated_type_witness :
  example !! 2%N = Some (GenericValue VectorXd (MatrixData 2 1 [1; 2])) ∧
  VectorXd ≠ Rot3 ∧
  at_ Rot3 2%N example =
  Throw (ValuesIncorrectType 2 (typeid_GenericValue VectorXd)
           (typeid_ValueType Rot3)).
Proof.
  split; [reflexivity|]. split; [discriminate|].
  apply (at_unrelated_type VectorXd Rot3 2%N (MatrixData 2 1 [1; 2]) example).
  - reflexivity.
  - discriminate.
Defined.

Lemma absent_key_witness :
  example !! 5%N = None ∧
  at_ Rot3 5%N example = Throw (ValuesKeyDoesNotExist "at" 5) ∧
  update Rot3 5%N (ObjectData 45) example =
    (Throw (ValuesKeyDoesNotExist "update" 5), example) ∧
  erase 5%N example = (Throw (ValuesKeyDoesNotExist "erase" 5), example) ∧
  exists_ Rot3 5%N example = Return None.
Proof.
  split; [reflexivity|].
  apply (absent_key Rot3 5%N (ObjectData 45) example). reflexivity.
Defined.

Lemma insert_duplicate_witness :
  is_Some (example !! 1%N) ∧
  insert Rot3 1%N (ObjectData 45) example = (Throw (DuplicateKey 1), example).
Proof.
  assert (is_Some (example !! 1%N)) as Hk by (eexists; reflexivity).
  split; [exact Hk|].
  apply (insert_duplicate Rot3 1%N (ObjectData 45) example Hk).
Defined.

Lemma exists_agrees_with_at_witness :
  is_Some (example !! 3%N) ∧
  at_ Rot3 3%N example = Return (ObjectData 90) ∧
  exists_ Rot3 3%N example = Return (Some (ObjectData 90)) ∧
  at_ VectorXd 3%N example =
    Throw (ValuesIncorrectType 3 (typeid_GenericValue Rot3)
             (typeid_ValueType VectorXd)) ∧
  exists_ VectorXd 3%N example =
    Throw (ValuesIncorrectType 3 (typeid_GenericValue Rot3)
             (typeid_ValueType VectorXd)).
Proof.
  assert (is_Some (example !! 3%N)) as Hk by (eexists; reflexivity).
  pose proof (exists_agrees_with_at Rot3 3%N example Hk) as (_ & Hreturn & _).
  pose proof (exists_agrees_with_at VectorXd 3%N example Hk) as (_ & _ & Hthrow).
  split; [exact Hk|]. split; [reflexivity|].
  split; [apply Hreturn; reflexivity|].
  split; [reflexivity|].
  apply Hthrow. reflexivity.
Defined.

Lemma copy_of_filtered_view_witness :
  (fixed_size Rot3 = false ∨ stores_no_fixed_size example) ∧
  Values_of_Filtered Rot3 (filter Rot3 (λ k, (2 <? k)%N) example) =
    Return {[ 3%N := GenericValue Rot3 (ObjectData 90) ]} ∧
  Values_of_ConstFiltered Rot3 (filter_const Rot3 (λ k, (2 <? k)%N) example) =
    Return (base.filter
              (λ kv, stored_type kv.2 = Rot3 ∧ (2 <? kv.1)%N = true) example) ∧
  (∀ item', ({[ 3%N := GenericValue Rot3 (ObjectData 90) ]}
               : gmap N (Value Z Z)) !! 3%N = Some item' →
            example !! 3%N = Some item').
Proof.
  assert (fixed_size Rot3 = false ∨ stores_no_fixed_size example) as Hcase
    by (left; reflexivity).
  destruct (copy_of_filtered_view Rot3 (λ k, (2 <? k)%N) example)
    as (C' & HFiltered & HConst & _ & _ & _ & Hsame).
  destruct (Hsame Hcase) as [Heq Hholders].
  assert (C' = {[ 3%N := GenericValue Rot3 (ObjectData 90) ]}) as HC'.
  { assert (Return C' =
            Return ({[ 3%N := GenericValue Rot3 (ObjectData 90) ]}
                      : gmap N (Value Z Z))) as Hret
      by (rewrite <-HFiltered; vm_compute; reflexivity).
    congruence. }
  split; [exact Hcase|].
  split; [by rewrite HFiltered, HC'|].
  split; [by rewrite HConst, Heq|].
  intros item'. rewrite <-HC'. apply Hholders.
Defined.

(** The example of the specification, evaluated. *)

Example example_in_key_order :
  Values_begin example =
  [(1%N, GenericValue Rot3 (ObjectData 0));
   (2%N, GenericValue VectorXd (MatrixData 2 1 [1; 2]));
   (3%N, GenericValue Rot3 (ObjectData 90))].
Proof. vm_compute. reflexivity. Qed.

Example example_filter_Rot3 :
  Filtered_range (filter Rot3 (λ _, true) example) =
    [(1%N, ObjectData 0); (3%N, ObjectData 90)] ∧
  Filtered_size (filter Rot3 (λ _, true) example) = 2%N ∧
  ConstFiltered_keys (filter_const Rot3 (λ _, true) example) fst = [1%N; 3%N].
Proof. vm_compute. done. Qed.

Example example_copy_of_view :
  Values_of_Filtered Rot3 (filter Rot3 (λ k, (2 <? k)%N) example) =
  Return {[ 3%N := GenericValue Rot3 (ObjectData 90) ]}.
Proof. vm_compute. reflexivity. Qed.

Example example_at :
  at_ Rot3 1%N example = Return (ObjectData 0) ∧
  at_ VectorXd 2%N example = Return (MatrixData 2 1 [1; 2]) ∧
  at_ Rot3 2%N example =
    Throw (ValuesIncorrectType 2 (typeid_GenericValue VectorXd)
             (typeid_ValueType Rot3)) ∧
  at_ (Matrix 2 1) 2%N example =
    Throw (ValuesIncorrectType 2 (typeid_GenericValue VectorXd)
             (typeid_ValueType (Matrix 2 1))) ∧
  handle (Matrix 2 1) 2%N (GenericValue VectorXd (MatrixData 2 1 [1; 2]))
    = Return (MatrixData (double:=Z) (object:=Z) 2 1 [1; 2]) ∧
  handle Vector3 2%N (GenericValue VectorXd (MatrixData 2 1 [1; 2]))
    = Throw (A:=payload Z Z) (NoMatchFoundForFixed 3 1 2 1).
Proof. vm_compute. done. Qed.

(** * Further properties of the code *)

Section MoreProperties.

Context {double object : Type}.

Abbreviation payload := (payload double object).
Abbreviation Value := (Value double object).
Abbreviation KeyValuePair := (Key * Value)%type.
Abbreviation Values := (gmap Key Value).
Abbreviation Filtered := (Filtered double object).
Abbreviation ConstFiltered := (ConstFiltered double object).

Implicit Types (T A B : ValueType) (j k : Key) (val : payload)
  (item : Value) (vs : Values).

(** ** [at] and [exists] *)

(** X1: [at<T>(k)] returns a value exactly when the container holds,
    under [k], a holder of stored type [T] with that value as payload. *)
Theorem at_returns_iff T k val vs :
  at_ T k vs = Return val ↔ vs !! k = Some (GenericValue T val).
Proof.
  unfold at_, dynamic_cast. destruct (vs !! k) as [[A val']|] eqn:Hk; simpl.
  - case_decide; split; intros Heq; simplify_eq; done.
  - split; intros; simplify_eq.
Qed.

(** X2: the only exceptions of [at<T>(k)] are [ValuesKeyDoesNotExist]
    with operation "at", on an absent key, and [ValuesIncorrectType], on a
    present key whose stored type is not [T]; the only exception of
    [exists<T>(k)] is the latter.  Neither ever throws
    [NoMatchFoundForFixed]. *)
Theorem at_exists_throw_only T k vs e :
  at_ T k vs = Throw e ∨ exists_ T k vs = Throw e →
  (e = ValuesKeyDoesNotExist "at" k ∧ vs !! k = None ∧
   exists_ T k vs = Return None) ∨
  (∃ item, vs !! k = Some item ∧ stored_type item ≠ T ∧
           e = ValuesIncorrectType k (typeid item) (typeid_ValueType T)).
Proof.
  unfold at_, exists_, dynamic_cast.
  destruct (vs !! k) as [item|] eqn:Hk.
  - case_decide; intros [Heq|Heq]; simplify_eq; right; by exists item.
  - intros [Heq|Heq]; simplify_eq. by left.
Qed.

(** X3: [exists<T>(k)] returns the empty result exactly when [k] is
    absent, and a value exactly when [k] holds a holder of stored type
    [T] with that value. *)
Theorem exists_returns_iff T k vs :
  (exists_ T k vs = Return None ↔ vs !! k = None) ∧
  (∀ val, exists_ T k vs = Return (Some val) ↔
          vs !! k = Some (GenericValue T val)).
Proof.
  unfold exists_, dynamic_cast.
  destruct (vs !! k) as [[A val']|] eqn:Hk; simpl.
  - case_decide; (split; [|intros val]); split; intros Heq; simplify_eq; done.
  - split; [done|]. intros val. split; intros; simplify_eq.
Qed.

(** X4: when [k] holds the holder that [handle_wrap] makes of a value
    passed at type [T], [at<T>(k)] gives the value back exactly when [T]
    is not a fixed-size numeric array type, and so does [exists<T>(k)]. *)
Theorem at_wrapped_iff T k val vs :
  vs !! k = Some (handle_wrap T k val) →
  (at_ T k vs = Return val ↔ fixed_size T = false) ∧
  (exists_ T k vs = Return (Some val) ↔ fixed_size T = false).
Proof.
  intros Hk.
  rewrite (at_present T k _ vs Hk), (exists_present T k _ vs Hk).
  destruct (fixed_size T) eqn:Hfix.
  - rewrite !decide_False by (by apply handle_wrap_fixed).
    split; split; intros Heq; discriminate Heq.
  - rewrite handle_wrap_unchanged by done. simpl.
    rewrite !decide_True by done. done.
Qed.

(** X5: a promoted value is read back at the dynamic type: when [k]
    holds the holder that [handle_wrap] makes of a value passed as a
    fixed-length vector, [at<VectorXd>(k)] returns the value, and for a
    fixed-shape matrix [at<MatrixXd>(k)] does. *)
Theorem at_dynamic_after_wrap T k val vs :
  vs !! k = Some (handle_wrap T k val) →
  (fixed_vector T = true → at_ VectorXd k vs = Return val) ∧
  (fixed_matrix T = true → at_ MatrixXd k vs = Return val).
Proof.
  intros Hk. split; intros HT.
  - rewrite handle_wrap_fixed_vector in Hk by done.
    rewrite (at_present VectorXd k _ vs Hk). by rewrite decide_True.
  - rewrite handle_wrap_fixed_matrix in Hk by done.
    rewrite (at_present MatrixXd k _ vs Hk). by rewrite decide_True.
Qed.

(** ** [internal::handle] *)

(** X6: [internal::handle<T>] computes what [at<T>] computes whenever
    [T] has no fixed number of rows or the stored type is [T] itself: the
    two differ only on a fixed-size request against another stored type. *)
Theorem handle_agrees_with_at T k item vs :
  vs !! k = Some item →
  fixed_rows T = false ∨ stored_type item = T →
  handle T k item = at_ T k vs.
Proof.
  intros Hk Hcase. rewrite (at_present T k item) by done.
  destruct T as [M N|name]; simpl in *.
  - destruct (Z.eqb_spec M Dynamic) as [->|HM].
    + unfold handle_exact, dynamic_cast. by case_decide.
    + destruct Hcase as [|Hstored]; [done|].
      rewrite decide_True by done.
      destruct (N =? 1) eqn:HN.
      * apply Z.eqb_eq in HN as ->. unfold handle_fixed, dynamic_cast.
        by rewrite decide_True.
      * unfold handle_fixed, dynamic_cast. by rewrite decide_True.
  - unfold handle_exact, dynamic_cast. by case_decide.
Qed.

(** X7: on a fixed-size request against a holder of the dynamic
    counterpart, [internal::handle] returns the stored array when its
    shape is the requested one and otherwise throws
    [NoMatchFoundForFixed] with the requested and the stored shape. *)
Theorem handle_fixed_shape_check M N j (A : payload) :
  M ≠ Dynamic →
  handle (Matrix M 1) j (GenericValue VectorXd A) =
    (if (rows A =? M) && (cols A =? 1) then Return A
     else Throw (NoMatchFoundForFixed M 1 (rows A) (cols A))) ∧
  (N ≠ 1 →
   handle (Matrix M N) j (GenericValue MatrixXd A) =
     (if (rows A =? M) && (cols A =? N) then Return A
      else Throw (NoMatchFoundForFixed M N (rows A) (cols A)))).
Proof.
  intros HM. simpl. destruct (Z.eqb_spec M Dynamic) as [|_]; [done|]. split.
  - unfold handle_fixed, handle_exact.
    rewrite dynamic_cast_other by (simpl; unfold VectorXd; congruence).
    rewrite dynamic_cast_same. simpl.
    by destruct (rows A =? M), (cols A =? 1).
  - intros HN. destruct (Z.eqb_spec N 1) as [|_]; [done|].
    unfold handle_fixed, handle_exact.
    rewrite dynamic_cast_other by (simpl; unfold MatrixXd; congruence).
    rewrite dynamic_cast_same. simpl.
    by destruct (rows A =? M), (cols A =? N).
Qed.

(** X8: on a fixed-size request against a holder that is neither of the
    requested type nor of its dynamic counterpart, [internal::handle]
    throws [ValuesIncorrectType] naming the dynamic counterpart, not the
    type that was asked for, as the requested type. *)
Theorem handle_fixed_unrelated M N j item :
  M ≠ Dynamic →
  stored_type item ≠ Matrix M N →
  stored_type item ≠ (if N =? 1 then VectorXd else MatrixXd) →
  handle (Matrix M N) j item =
  Throw (ValuesIncorrectType j (typeid item)
           (typeid_ValueType (if N =? 1 then VectorXd else MatrixXd))).
Proof.
  intros HM HT HD. simpl. destruct (Z.eqb_spec M Dynamic) as [|_]; [done|].
  destruct (Z.eqb_spec N 1) as [->|HN]; unfold handle_fixed, handle_exact;
    by rewrite !dynamic_cast_other.
Qed.

(** X9: [internal::handle] undoes [internal::handle_wrap]: a value
    wrapped at a type that is not fixed-size is returned at that type, and
    a matrix of [M] rows and [N] columns wrapped at the fixed type
    [Matrix M N] is returned at that type. *)
Theorem handle_handle_wrap T j val :
  (fixed_size T = false → handle T j (handle_wrap T j val) = Return val) ∧
  (∀ M N coeffs,
     M ≠ Dynamic → T = Matrix M N → val = MatrixData M N coeffs →
     handle T j (handle_wrap T j val) = Return val).
Proof.
  split.
  - intros Hfix. rewrite handle_wrap_unchanged by done.
    destruct T as [M N|name]; simpl in *.
    + destruct (Z.eqb_spec M Dynamic) as [->|]; [|done].
      unfold handle_exact. by rewrite dynamic_cast_same.
    + unfold handle_exact. by rewrite dynamic_cast_same.
  - intros M N coeffs HM -> ->.
    destruct (Z.eqb_spec N 1) as [->|HN].
    + rewrite (handle_after_promotion M j M coeffs HM).
      by rewrite Z.eqb_refl.
    + rewrite (handle_matrix_after_promotion M N j M N coeffs HM HN).
      by rewrite !Z.eqb_refl.
Qed.

(** X10: a matrix type that is dynamic in one dimension only is not
    read back even by [internal::handle].  With dynamic rows and a fixed
    number [N] of columns other than 1, the wrapped holder is a dynamic
    matrix and the request throws [ValuesIncorrectType]; with fixed rows
    and dynamic columns the shape check compares the stored number of
    columns with [Dynamic] and throws [NoMatchFoundForFixed]. *)
Theorem handle_partially_dynamic M N j val :
  (N ≠ 1 → N ≠ Dynamic →
   handle (Matrix Dynamic N) j (handle_wrap (Matrix Dynamic N) j val) =
   Throw (ValuesIncorrectType j (typeid_GenericValue MatrixXd)
            (typeid_ValueType (Matrix Dynamic N)))) ∧
  (M ≠ Dynamic → 0 ≤ cols val →
   handle (Matrix M Dynamic) j (handle_wrap (Matrix M Dynamic) j val) =
   Throw (NoMatchFoundForFixed M Dynamic (rows val) (cols val))).
Proof.
  split.
  - intros HN1 HND. simpl. destruct (Z.eqb_spec N 1) as [|_]; [done|].
    unfold handle_exact.
    by rewrite dynamic_cast_other by (simpl; unfold MatrixXd; congruence).
  - intros HM Hcols. simpl.
    destruct (Z.eqb_spec M Dynamic) as [|_]; [done|].
    unfold handle_fixed, handle_exact.
    rewrite dynamic_cast_other by (simpl; unfold MatrixXd; congruence).
    rewrite dynamic_cast_same. simpl.
    destruct (Z.eqb_spec (cols val) Dynamic) as [Heq|_].
    + unfold Dynamic in Heq. lia.
    + by rewrite orb_true_r.
Qed.

(** ** [internal::handle_wrap] *)

(** X11: [internal::handle_wrap] stores a matrix type of one column as
    a dynamic vector, every other matrix type as a dynamic matrix and a
    class as itself, always with the payload it was given; wrapping at
    the stored type again yields the same holder. *)
Theorem handle_wrap_stored_type T j val :
  stored_type (handle_wrap T j val) =
    match T with
    | Matrix _ 1 => VectorXd
    | Matrix _ _ => MatrixXd
    | Class name => Class name
    end ∧
  value (handle_wrap T j val) = val ∧
  handle_wrap (stored_type (handle_wrap T j val)) j val = handle_wrap T j val.
Proof.
  split; [|split].
  - destruct T as [M N|name]; simpl; [|done].
    destruct (Z.eqb_spec N 1) as [->|HN]; [done|].
    destruct N as [|[]|]; done.
  - apply value_handle_wrap.
  - rewrite handle_wrap_unchanged by apply handle_wrap_not_fixed.
    destruct T as [M N|name]; simpl; [by destruct (N =? 1)|done].
Qed.

(** ** Views over an arbitrary filter *)

Lemma ConstFiltered_keys_ctor {C} (cast : KeyValuePair → C) (key : C → Key)
    (f : KeyValuePair → bool) vs :
  ConstFiltered_keys (ConstFiltered_ctor cast f vs) key =
  key <$> (cast <$> base.filter (λ kv, f kv) (Values_begin vs)).
Proof.
  unfold ConstFiltered_keys, ConstFiltered_ctor, Filtered_ctor,
    make_filter_iterator. simpl.
  rewrite for_loop_filter by done.
  generalize (cast <$> base.filter (λ kv, f kv) (Values_begin vs)).
  intros l.
  assert (∀ out : list Key,
    foldl (λ (s : list Key) (x : C), s ++ [key x]) out l =
    out ++ (key <$> l)) as Hfold.
  { induction l as [|x l IH]; intros out; simpl.
    - by rewrite app_nil_r.
    - by rewrite IH, <-app_assoc. }
  apply (Hfold []).
Qed.

Lemma ConstFiltered_size_ctor {C} (cast : KeyValuePair → C)
    (f : KeyValuePair → bool) vs :
  ConstFiltered_size (ConstFiltered_ctor cast f vs) =
  Filtered_size (Filtered_ctor cast f vs).
Proof. done. Qed.

(** X12: a traversal of a [Filtered] view yields the casted pairs of
    exactly the entries of the container that satisfy the filter.  Under
    the typed cast, whose filter checks the stored type [T], these are the
    keys with the payloads of the holders of type [T]; under the cast for
    [Value] they are the keys with the holders themselves. *)
Theorem Filtered_range_elem (f : KeyValuePair → bool) T vs :
  (checks_type f T →
   ∀ k val,
     (k, val) ∈ Filtered_range (Filtered_ctor ValuesCastHelper_cast f vs) ↔
     vs !! k = Some (GenericValue T val) ∧ f (k, GenericValue T val) = true) ∧
  (∀ k item,
     (k, item) ∈ Filtered_range (Filtered_ctor ValuesCastHelper_Value_cast f vs) ↔
     vs !! k = Some item ∧ f (k, item) = true).
Proof.
  split.
  - intros Hcheck k val. rewrite Filtered_range_ctor, list_elem_of_fmap. split.
    + intros ([k' item] & [= -> ->] & Hin).
      apply list_elem_of_filter in Hin as [Hf Hin].
      apply elem_of_Values_begin in Hin. apply Is_true_true in Hf.
      pose proof (Hcheck _ Hf) as HT. destruct item as [A val']. simpl in *.
      by subst A.
    + intros [Hk Hf]. exists (k, GenericValue T val). split; [done|].
      apply list_elem_of_filter. split.
      * by apply Is_true_true.
      * by apply elem_of_Values_begin.
  - intros k item. rewrite Filtered_range_ctor, list_elem_of_fmap. split.
    + intros ([k' item'] & [= -> ->] & Hin).
      apply list_elem_of_filter in Hin as [Hf Hin].
      apply elem_of_Values_begin in Hin. by apply Is_true_true in Hf.
    + intros [Hk Hf]. exists (k, item). split; [done|].
      apply list_elem_of_filter. split.
      * by apply Is_true_true.
      * by apply elem_of_Values_begin.
Qed.

(** X13: a traversal of a [Filtered] view visits strictly ascending
    keys, so no key is visited twice, under the typed cast with a filter
    that checks the stored type as under the cast for [Value]. *)
Theorem Filtered_range_ascending (f : KeyValuePair → bool) T vs :
  (checks_type f T →
   StronglySorted N.lt
     (Filtered_range (Filtered_ctor ValuesCastHelper_cast f vs)).*1) ∧
  StronglySorted N.lt
    (Filtered_range (Filtered_ctor ValuesCastHelper_Value_cast f vs)).*1.
Proof.
  rewrite !Filtered_range_ctor, <-!list_fmap_compose.
  split; [intros _|]; apply (filter_keys_ascending f), Values_begin_ascending.
Qed.

(** X14: [Filtered::size()] is the number of pairs a traversal yields
    and the number of entries of the container that satisfy the filter;
    it is at most the size of the container, and it is zero exactly when
    no entry satisfies the filter. *)
Theorem Filtered_size_count {C} (cast : KeyValuePair → C)
    (f : KeyValuePair → bool) vs :
  let view := Filtered_ctor cast f vs in
  Filtered_size view = N.of_nat (length (Filtered_range view)) ∧
  Filtered_size view =
    N.of_nat (size (base.filter (λ kv, f kv = true) vs)) ∧
  (Filtered_size view ≤ N.of_nat (size vs))%N ∧
  (Filtered_size view = 0%N ↔
   ∀ k item, vs !! k = Some item → f (k, item) = false).
Proof.
  intros view. subst view.
  assert (Filtered_size (Filtered_ctor cast f vs) =
          N.of_nat (size (base.filter (λ kv, f kv = true) vs))) as Hsize.
  { rewrite Filtered_size_ctor. f_equal.
    by apply filter_Values_begin_length. }
  split; [|split; [done|split]].
  - by rewrite Filtered_size_ctor, Filtered_range_ctor, length_fmap.
  - rewrite Hsize.
    pose proof (map_size_filter (λ kv : KeyValuePair, f kv = true) vs). lia.
  - rewrite Hsize.
    assert (N.of_nat (size (base.filter (λ kv, f kv = true) vs)) = 0%N
            ↔ base.filter (λ kv, f kv = true) vs = ∅) as ->.
    { rewrite <-map_size_empty_iff. lia. }
    rewrite map_empty_filter. unfold map_Forall. split.
    + intros Hall k item Hk. specialize (Hall k item Hk).
      by apply not_true_is_false.
    + intros Hall k item Hk. rewrite (Hall k item Hk). done.
Qed.

(** X15: for a read-only typed view whose filter checks the stored
    type, [ConstFiltered::keys()] returns, in strictly ascending order,
    exactly the keys of the entries that satisfy the filter, and as many
    keys as [ConstFiltered::size()] counts. *)
Theorem ConstFiltered_keys_spec (f : KeyValuePair → bool) T vs :
  checks_type f T →
  let view := ConstFiltered_ctor ValuesCastHelper_cast f vs in
  (∀ k, k ∈ ConstFiltered_keys view fst ↔
        ∃ val, vs !! k = Some (GenericValue T val) ∧
               f (k, GenericValue T val) = true) ∧
  StronglySorted N.lt (ConstFiltered_keys view fst) ∧
  N.of_nat (length (ConstFiltered_keys view fst)) = ConstFiltered_size view.
Proof.
  intros Hcheck view. subst view.
  rewrite ConstFiltered_keys_ctor, ConstFiltered_size_ctor, Filtered_size_ctor.
  split; [|split].
  - intros k. rewrite <-list_fmap_compose, list_elem_of_fmap. split.
    + intros ([k' item] & -> & Hin).
      apply list_elem_of_filter in Hin as [Hf Hin].
      apply elem_of_Values_begin in Hin. apply Is_true_true in Hf.
      pose proof (Hcheck _ Hf) as HT. destruct item as [A val]. simpl in *.
      subst A. by exists val.
    + intros (val & Hk & Hf). exists (k, GenericValue T val). split; [done|].
      apply list_elem_of_filter. split.
      * by apply Is_true_true.
      * by apply elem_of_Values_begin.
  - rewrite <-list_fmap_compose.
    apply (filter_keys_ascending f), Values_begin_ascending.
  - by rewrite !length_fmap.
Qed.

(** X16: the untyped view [filter(pred)] keeps the entries whose key
    satisfies the predicate, whatever their stored type and with their
    holder; with the always-true predicate it yields the whole container
    in key order, and its [size()] is the size of the container.  The
    read-only overload counts the same entries. *)
Theorem filter_Value_spec (pred : Key → bool) vs :
  (∀ k item, (k, item) ∈ Filtered_range (filter_Value pred vs) ↔
             vs !! k = Some item ∧ pred k = true) ∧
  Filtered_range (filter_Value (λ _, true) vs) = Values_begin vs ∧
  Filtered_size (filter_Value (λ _, true) vs) = N.of_nat (size vs) ∧
  ConstFiltered_size (filter_Value_const pred vs) =
    Filtered_size (filter_Value pred vs).
Proof.
  split; [|split; [|split]].
  - intros k item. apply filter_Value_range.
  - unfold filter_Value. rewrite Filtered_range_ctor.
    induction (Values_begin vs) as [|[k item] l IH]; [done|].
    rewrite filter_cons_bool.
    change (filterHelper_Value (λ _ : N, true) (k, item)) with true.
    cbv iota. rewrite fmap_cons, IH. done.
  - unfold filter_Value. rewrite Filtered_size_ctor. f_equal.
    rewrite <-length_map_to_list, <-(Values_begin_Permutation vs).
    induction (Values_begin vs) as [|[k item] l IH]; [done|].
    rewrite filter_cons_bool.
    change (filterHelper_Value (λ _ : N, true) (k, item)) with true.
    cbv iota. cbn [length]. by rewrite IH.
  - done.
Qed.

(** ** Fixed-size requests on a container of promoted holders *)

(** X17: on a container none of whose holders has a fixed-size numeric
    array type, which is all that [handle_wrap] ever produces, [at<T>]
    for a fixed-size [T] never returns a value and [exists<T>] never
    returns a non-empty result, whatever the key. *)
Theorem at_fixed_size_never_returns T k vs :
  stores_no_fixed_size vs → fixed_size T = true →
  (∀ val, at_ T k vs ≠ Return val) ∧
  (∀ val, exists_ T k vs ≠ Return (Some val)).
Proof.
  intros Hinv Hfix.
  assert (∀ item, vs !! k = Some item → stored_type item ≠ T) as Hne.
  { intros item Hk Heq. specialize (Hinv k item Hk). congruence. }
  split; intros val; unfold at_, exists_.
  - destruct (vs !! k) as [item|] eqn:Hk; [|done].
    by rewrite dynamic_cast_other by (by apply Hne).
  - destruct (vs !! k) as [item|] eqn:Hk; [|done].
    by rewrite dynamic_cast_other by (by apply Hne).
Qed.

(** X18: with the type filter of [filterHelper<T>] as specified, the
    view [filter<T>(pred)] for a fixed-size [T] is empty on a container
    none of whose holders has a fixed-size numeric array type: its
    traversal yields nothing and its [size()] is zero. *)
Theorem filter_fixed_size_empty T (pred : Key → bool) vs :
  stores_no_fixed_size vs → fixed_size T = true →
  Filtered_range (filter T pred vs) = [] ∧
  Filtered_size (filter T pred vs) = 0%N.
Proof.
  intros Hinv Hfix. unfold filter.
  rewrite Filtered_range_ctor, Filtered_size_ctor.
  assert (base.filter (λ kv, filterHelper T pred kv) (Values_begin vs) = [])
    as ->; [|done].
  apply elem_of_nil_inv. intros [k item] Hin.
  apply list_elem_of_filter in Hin as [Hf Hin].
  apply Is_true_true, filterHelper_true in Hf as [_ HT].
  apply elem_of_Values_begin in Hin.
  specialize (Hinv k item Hin). congruence.
Qed.

(** X19: with [filterHelper<T>] and the untemplated [insert] as
    specified, the container constructed from the view [filter<T>(pred)]
    for a [T] that is not fixed-size is the source restricted to the
    entries of stored type [T] whose key satisfies [pred], holders
    included; both constructors return it. *)
Theorem Values_of_filter_not_fixed T (pred : Key → bool) vs :
  fixed_size T = false →
  Values_of_Filtered T (filter T pred vs) =
    Return (base.filter (λ kv, stored_type kv.2 = T ∧ pred kv.1 = true) vs) ∧
  Values_of_ConstFiltered T (filter_const T pred vs) =
    Return (base.filter (λ kv, stored_type kv.2 = T ∧ pred kv.1 = true) vs).
Proof.
  intros Hfix.
  rewrite Values_of_Filtered_filter, Values_of_ConstFiltered_filter.
  assert (copied T pred vs =
          base.filter (λ kv, stored_type kv.2 = T ∧ pred kv.1 = true) vs)
    as ->; [|done].
  apply map_eq. intros k. apply option_eq. intros item'.
  rewrite lookup_copied, map_lookup_filter_Some. simpl. split.
  - intros (item & Hk & Hpred & HT & ->).
    rewrite handle_wrap_unchanged by done.
    destruct item as [A val]. simpl in *. by subst A.
  - intros (Hk & HT & Hpred). exists item'. split; [done|].
    split; [done|]. split; [done|].
    rewrite handle_wrap_unchanged by done.
    destruct item' as [A val]. simpl in *. by subst A.
Qed.

End MoreProperties.

(** * The further properties on the concrete containers *)

Lemma at_exists_throw_only_witness :
  (at_ Rot3 2%N example =
     Throw (ValuesIncorrectType 2 (typeid_GenericValue VectorXd)
              (typeid_ValueType Rot3)) ∨
   exists_ Rot3 2%N example =
     Throw (ValuesIncorrectType 2 (typeid_GenericValue VectorXd)
              (typeid_ValueType Rot3))) ∧
  ((ValuesIncorrectType 2 (typeid_GenericValue VectorXd) (typeid_ValueType Rot3)
      = ValuesKeyDoesNotExist "at" 2 ∧
    example !! 2%N = None ∧ exists_ Rot3 2%N example = Return None) ∨
   (∃ item, example !! 2%N = Some item ∧ stored_type item ≠ Rot3 ∧
            ValuesIncorrectType 2 (typeid_GenericValue VectorXd)
              (typeid_ValueType Rot3) =
            ValuesIncorrectType 2 (typeid item) (typeid_ValueType Rot3))).
Proof.
  assert (at_ Rot3 2%N example =
            Throw (ValuesIncorrectType 2 (typeid_GenericValue VectorXd)
                     (typeid_ValueType Rot3)) ∨
          exists_ Rot3 2%N example =
            Throw (ValuesIncorrectType 2 (typeid_GenericValue VectorXd)
                     (typeid_ValueType Rot3))) as Hthrow
    by (left; reflexivity).
  split; [exact Hthrow|].
  apply (at_exists_throw_only Rot3 2%N example _ Hthrow).
Defined.

Lemma at_wrapped_iff_witness :
  example !! 2%N = Some (handle_wrap VectorXd 2%N (MatrixData 2 1 [1; 2])) ∧
  (at_ VectorXd 2%N example = Return (MatrixData 2 1 [1; 2])
   ↔ fixed_size VectorXd = false) ∧
  (exists_ VectorXd 2%N example = Return (Some (MatrixData 2 1 [1; 2]))
   ↔ fixed_size VectorXd = false).
Proof.
  split; [reflexivity|].
  apply (at_wrapped_iff VectorXd 2%N (MatrixData 2 1 [1; 2]) example).
  reflexivity.
Defined.

Lemma at_dynamic_after_wrap_witness :
  example_promoted !! 4%N =
    Some (handle_wrap Vector3 4%N (MatrixData 3 1 [1; 2; 3])) ∧
  fixed_vector Vector3 = true ∧
  at_ VectorXd 4%N example_promoted = Return (MatrixData 3 1 [1; 2; 3]).
Proof.
  split; [reflexivity|]. split; [reflexivity|].
  apply (at_dynamic_after_wrap Vector3 4%N (MatrixData 3 1 [1; 2; 3])
           example_promoted); reflexivity.
Defined.

Lemma handle_agrees_with_at_witness :
  example !! 2%N = Some (GenericValue VectorXd (MatrixData 2 1 [1; 2])) ∧
  fixed_rows Rot3 = false ∧
  handle Rot3 2%N (GenericValue VectorXd (MatrixData 2 1 [1; 2])) =
    at_ Rot3 2%N example.
Proof.
  split; [reflexivity|]. split; [reflexivity|].
  apply (handle_agrees_with_at Rot3 2%N
           (GenericValue VectorXd (MatrixData 2 1 [1; 2])) example).
  - reflexivity.
  - left. reflexivity.
Defined.

Lemma handle_fixed_shape_check_witness :
  3 ≠ Dynamic ∧
  handle Vector3 1%N (GenericValue VectorXd (MatrixData 2 1 [1; 2])) =
    Throw (A:=payload Z Z) (NoMatchFoundForFixed 3 1 2 1) ∧
  2 ≠ 1 ∧
  handle (Matrix 3 2) 1%N
    (GenericValue MatrixXd (MatrixData 3 2 [1; 2; 3; 4; 5; 6])) =
    Return (MatrixData (double:=Z) (object:=Z) 3 2 [1; 2; 3; 4; 5; 6]).
Proof.
  assert (3 ≠ Dynamic) as HM by discriminate.
  assert (2 ≠ 1) as HN by discriminate.
  split; [exact HM|].
  split; [exact (proj1 (handle_fixed_shape_check 3 1 1%N
                          (MatrixData 2 1 [1; 2]) HM))|].
  split; [exact HN|].
  exact (proj2 (handle_fixed_shape_check 3 2 1%N
                  (MatrixData 3 2 [1; 2; 3; 4; 5; 6]) HM) HN).
Defined.

Lemma handle_fixed_unrelated_witness :
  3 ≠ Dynamic ∧
  stored_type (GenericValue (double:=Z) (object:=Z) Rot3 (ObjectData 0))
    ≠ Vector3 ∧
  stored_type (GenericValue (double:=Z) (object:=Z) Rot3 (ObjectData 0))
    ≠ VectorXd ∧
  handle Vector3 1%N (GenericValue (double:=Z) (object:=Z) Rot3 (ObjectData 0)) =
    Throw (ValuesIncorrectType 1 (typeid_GenericValue Rot3)
             (typeid_ValueType VectorXd)).
Proof.
  assert (3 ≠ Dynamic) as HM by discriminate.
  split; [exact HM|]. split; [discriminate|]. split; [discriminate|].
  apply (handle_fixed_unrelated 3 1 1%N (GenericValue Rot3 (ObjectData 0)) HM);
    discriminate.
Defined.

Lemma handle_handle_wrap_witness :
  fixed_size Rot3 = false ∧
  handle Rot3 1%N (handle_wrap Rot3 1%N (ObjectData 90)) =
    Return (ObjectData (double:=Z) (object:=Z) 90) ∧
  3 ≠ Dynamic ∧
  handle Vector3 1%N (handle_wrap Vector3 1%N (MatrixData 3 1 [1; 2; 3])) =
    Return (MatrixData (double:=Z) (object:=Z) 3 1 [1; 2; 3]).
Proof.
  assert (3 ≠ Dynamic) as HM by discriminate.
  split; [reflexivity|].
  split; [apply (proj1 (handle_handle_wrap Rot3 1%N (ObjectData 90)));
          reflexivity|].
  split; [exact HM|].
  apply (proj2 (handle_handle_wrap Vector3 1%N (MatrixData 3 1 [1; 2; 3]))
           3 1 [1; 2; 3] HM); reflexivity.
Defined.

Lemma handle_partially_dynamic_witness :
  3 ≠ 1 ∧ 3 ≠ Dynamic ∧
  handle (Matrix Dynamic 3) 1%N
    (handle_wrap (Matrix Dynamic 3) 1%N (MatrixData 2 3 [1; 2; 3; 4; 5; 6])) =
    Throw (A:=payload Z Z)
      (ValuesIncorrectType 1 (typeid_GenericValue MatrixXd)
         (typeid_ValueType (Matrix Dynamic 3))) ∧
  0 ≤ 2 ∧
  handle (Matrix 3 Dynamic) 1%N
    (handle_wrap (Matrix 3 Dynamic) 1%N (MatrixData 3 2 [1; 2; 3; 4; 5; 6])) =
    Throw (A:=payload Z Z) (NoMatchFoundForFixed 3 Dynamic 3 2).
Proof.
  assert (3 ≠ 1) as HN1 by discriminate.
  assert (3 ≠ Dynamic) as HND by discriminate.
  split; [exact HN1|]. split; [exact HND|].
  split; [exact (proj1 (handle_partially_dynamic 3 3 1%N
                          (MatrixData 2 3 [1; 2; 3; 4; 5; 6])) HN1 HND)|].
  split; [lia|].
  apply (proj2 (handle_partially_dynamic 3 3 1%N
                  (MatrixData 3 2 [1; 2; 3; 4; 5; 6])) HND).
  simpl. lia.
Defined.

Lemma filterHelper_checks_type {double object : Type} T (pred : Key → bool) :
  checks_type (double:=double) (object:=object) (filterHelper T pred) T.
Proof. intros [k item] Hf. by apply filterHelper_true in Hf as [_ HT]. Qed.

#[local] Abbreviation Rot3_filter :=
  (filterHelper (double:=Z) (object:=Z) Rot3 (λ _, true)).

Lemma Filtered_range_elem_witness :
  checks_type Rot3_filter Rot3 ∧
  ((3%N, ObjectData 90) ∈
     Filtered_range
       (Filtered_ctor ValuesCastHelper_cast Rot3_filter
          example) ↔
   example !! 3%N = Some (GenericValue Rot3 (ObjectData 90)) ∧
   Rot3_filter (3%N, GenericValue Rot3 (ObjectData 90)) = true).
Proof.
  split; [apply filterHelper_checks_type|].
  apply (proj1 (Filtered_range_elem Rot3_filter Rot3 example)
           (filterHelper_checks_type Rot3 (λ _, true))).
Defined.

Lemma Filtered_range_ascending_witness :
  checks_type Rot3_filter Rot3 ∧
  StronglySorted N.lt
    (Filtered_range
       (Filtered_ctor ValuesCastHelper_cast Rot3_filter
          example)).*1.
Proof.
  split; [apply filterHelper_checks_type|].
  apply (proj1 (Filtered_range_ascending Rot3_filter
                  Rot3 example)
           (filterHelper_checks_type Rot3 (λ _, true))).
Defined.

Lemma ConstFiltered_keys_spec_witness :
  checks_type Rot3_filter Rot3 ∧
  (∀ k, k ∈ ConstFiltered_keys
              (ConstFiltered_ctor ValuesCastHelper_cast
                 Rot3_filter example) fst ↔
        ∃ val, example !! k = Some (GenericValue Rot3 val) ∧
               Rot3_filter (k, GenericValue Rot3 val) = true) ∧
  StronglySorted N.lt
    (ConstFiltered_keys
       (ConstFiltered_ctor ValuesCastHelper_cast
          Rot3_filter example) fst) ∧
  N.of_nat (length (ConstFiltered_keys
                      (ConstFiltered_ctor ValuesCastHelper_cast
                         Rot3_filter example) fst)) =
    ConstFiltered_size
      (ConstFiltered_ctor ValuesCastHelper_cast
         Rot3_filter example).
Proof.
  split; [apply filterHelper_checks_type|].
  apply (ConstFiltered_keys_spec Rot3_filter Rot3 example
           (filterHelper_checks_type Rot3 (λ _, true))).
Defined.

Lemma example_promoted_stores_no_fixed_size :
  stores_no_fixed_size example_promoted.
Proof.
  unfold example_promoted, insert.
  apply stores_no_fixed_size_insert_Value; [apply handle_wrap_not_fixed|].
  apply example_stores_no_fixed_size.
Qed.

Lemma at_fixed_size_never_returns_witness :
  stores_no_fixed_size example_promoted ∧ fixed_size Vector3 = true ∧
  (∀ val, at_ Vector3 4%N example_promoted ≠ Return val) ∧
  (∀ val, exists_ Vector3 4%N example_promoted ≠ Return (Some val)).
Proof.
  split; [apply example_promoted_stores_no_fixed_size|].
  split; [reflexivity|].
  apply (at_fixed_size_never_returns Vector3 4%N example_promoted).
  - apply example_promoted_stores_no_fixed_size.
  - reflexivity.
Defined.

Lemma filter_fixed_size_empty_witness :
  stores_no_fixed_size example_promoted ∧ fixed_size Vector3 = true ∧
  Filtered_range (filter Vector3 (λ _, true) example_promoted) = [] ∧
  Filtered_size (filter Vector3 (λ _, true) example_promoted) = 0%N.
Proof.
  split; [apply example_promoted_stores_no_fixed_size|].
  split; [reflexivity|].
  apply (filter_fixed_size_empty Vector3 (λ _, true) example_promoted).
  - apply example_promoted_stores_no_fixed_size.
  - reflexivity.
Defined.

Lemma Values_of_filter_not_fixed_witness :
  fixed_size Rot3 = false ∧
  Values_of_Filtered Rot3 (filter Rot3 (λ k, (2 <? k)%N) example) =
    Return (base.filter
              (λ kv, stored_type kv.2 = Rot3 ∧ (2 <? kv.1)%N = true) example) ∧
  Values_of_ConstFiltered Rot3 (filter_const Rot3 (λ k, (2 <? k)%N) example) =
    Return (base.filter
              (λ kv, stored_type kv.2 = Rot3 ∧ (2 <? kv.1)%N = true) example).
Proof.
  split; [reflexivity|].
  apply (Values_of_filter_not_fixed Rot3 (λ k, (2 <? k)%N) example).
  reflexivity.
Defined.

(** The promoted example, evaluated: key 4 can be read as a dynamic
    vector only, and [internal::handle] would accept the fixed-size
    request. *)
Example example_promoted_at :
  at_ VectorXd 4%N example_promoted = Return (MatrixData 3 1 [1; 2; 3]) ∧
  at_ Vector3 4%N example_promoted =
    Throw (ValuesIncorrectType 4 (typeid_GenericValue VectorXd)
             (typeid_ValueType Vector3)) ∧
  handle Vector3 4%N (GenericValue VectorXd (MatrixData 3 1 [1; 2; 3])) =
    Return (MatrixData (double:=Z) (object:=Z) 3 1 [1; 2; 3]) ∧
  ConstFiltered_keys (filter_Value_const (λ k, (1 <? k)%N) example_promoted) fst
    = [2%N; 3%N; 4%N].
Proof. vm_compute. done. Qed.
